(** * RenderTargetResourceEntry: resolve / update / devirtualize / destroy

    A shallow embedding of [filament/src/fg/fg/RenderTargetResourceEntry.cpp]
    and the properties of its attribute-resolution and lifetime protocol.

    Integers of the C++ code ([uint8_t], [uint16_t], [uint32_t]) are values
    of [Z]; bit masks are combined with [Z.lor] and [Z.land].  The frame
    graph's texture entries live in a store (a list addressed by position),
    so that two attachments naming the same texture entry alias, as the
    C++ references do.  Code that can stop (a failed [assert], an access
    through a handle that names nothing) runs in the [outcome] monad. *)

From Stdlib Require Import ZArith Lia Bool String.
From stdpp Require Import base option list.

Local Open Scope Z_scope.

(** ** Outcomes of fallible code *)

Inductive failure : Type :=
| AssertionFailed   (* a C [assert] whose condition is false, in a debug build *)
| InvalidAccess.    (* an index or handle that names no object: undefined in C++ *)

Inductive outcome (A : Type) : Type :=
| Done (a : A)
| Abort (f : failure).

Arguments Done {A} a.
Arguments Abort {A} f.

Definition bind {A B : Type} (m : outcome A) (k : A -> outcome B) : outcome B :=
  match m with
  | Done a => k a
  | Abort f => Abort f
  end.

Notation "'let*' x ':=' m 'in' k" := (bind m (fun x => k))
  (at level 10, x pattern, m at level 100, k at level 200).

(** [assert(c)]: nothing when [NDEBUG] is defined, fatal when [c] is false. *)
Definition assert (NDEBUG : bool) (c : bool) : outcome unit :=
  if NDEBUG || c then Done tt else Abort AssertionFailed.

Definition deref {A : Type} (o : option A) : outcome A :=
  match o with
  | Some a => Done a
  | None => Abort InvalidAccess
  end.

(** ** backend: flags, usages, handles *)

Module backend.

(** Modelled from the spec: the enumeration [TargetBufferFlags]
    (backend/DriverEnums.h is not among the sources).  The spec describes a
    bit mask with one flag per attachment slot {Color, Depth, Stencil};
    the three flags are distinct single bits of a [uint8_t]. *)
Definition NONE : Z := 0.
Definition COLOR : Z := 1.
Definition DEPTH : Z := 2.
Definition STENCIL : Z := 4.

(** [any(f)] and [none(f)] on a bit mask. *)
Definition any (f : Z) : bool := negb (f =? 0).
Definition none (f : Z) : bool := f =? 0.

(** Modelled from the spec: the enumeration [TextureUsage] (same missing
    header): one required-usage flag per attachment slot, and the flag of
    a texture that shaders sample directly; distinct single bits. *)
Definition COLOR_ATTACHMENT : Z := 1.
Definition DEPTH_ATTACHMENT : Z := 2.
Definition STENCIL_ATTACHMENT : Z := 4.
Definition UPLOADABLE : Z := 8.
Definition SAMPLEABLE : Z := 16.

(** [backend::Handle<T>]: an object id or null; [bool(h)] is "non-null",
    [h.clear()] makes it null. *)
Definition Handle : Type := option nat.
Definition nonnull (h : Handle) : bool :=
  match h with Some _ => true | None => false end.

(** [backend::TargetBufferInfo]: a texture handle and a mip level; a
    default-constructed one has a null handle and level 0. *)
Record TargetBufferInfo : Type := mkTargetBufferInfo {
  handle : Handle;
  level : Z
}.
Definition emptyInfo : TargetBufferInfo := mkTargetBufferInfo None 0.

End backend.
Import backend.

Definition u32 (x : Z) : Z := x mod 4294967296.
Definition UINT32_MAX : Z := 4294967295.

(** Modelled from the spec: [details::FTexture::valueForLevel]
    (details/Texture.h is not among the sources).  The spec defines the
    mip-scaled dimension as the declared base dimension right-shifted by the
    requested mip level. *)
Definition valueForLevel (level : Z) (baseLevelValue : Z) : Z :=
  Z.shiftr baseLevelValue level.

(** ** Frame graph handles and texture entries *)

(** [FrameGraphHandle]: a [uint16_t] index, valid unless it is the
    reserved value. *)
Definition UNINITIALIZED : Z := 65535.

Record FrameGraphHandle : Type := mkHandle { index : Z }.

Definition handleIsValid (h : FrameGraphHandle) : bool :=
  negb (index h =? UNINITIALIZED).

(** [Attachments::AttachmentInfo]: a virtual texture handle and a mip level. *)
Record AttachmentInfo : Type := mkAttachmentInfo {
  mHandle : FrameGraphHandle;
  mLevel : Z
}.

Definition isValid (a : AttachmentInfo) : bool := handleIsValid (mHandle a).
Definition getHandle (a : AttachmentInfo) : FrameGraphHandle := mHandle a.
Definition getLevel (a : AttachmentInfo) : Z := mLevel a.

(** [FrameGraphTexture::Descriptor], the fields this file reads or writes. *)
Record TextureDescriptor : Type := mkTextureDescriptor {
  tex_width : Z;
  tex_height : Z;
  tex_levels : Z;
  tex_samples : Z;
  tex_usage : Z
}.

(** [fg::ResourceEntry<FrameGraphTexture>]: the declared descriptor, the
    real texture ([getResource().texture]) and the discard intents that the
    resource nodes expose ([resource->discardStart], [resource->discardEnd]). *)
Record TextureEntry : Type := mkTextureEntry {
  tex_descriptor : TextureDescriptor;
  tex_texture : Handle;
  tex_discardStart : bool;
  tex_discardEnd : bool
}.

(** [ResourceNode]: [resource] points to the entry it stands for; the
    pointer is a position in the store of entries. *)
Record ResourceNode : Type := mkResourceNode { resource : nat }.

(** Modelled from the spec: the external allocator (fg/ResourceAllocator.h
    is not among the sources).  [createRenderTarget] returns a non-null
    handle; the model hands out fresh ids and records every call. *)
Inductive AllocatorCall : Type :=
| CreateRenderTarget (name : string) (attachments width height samples : Z)
                     (color depth stencil : TargetBufferInfo)
| DestroyRenderTarget (h : Handle).

Record ResourceAllocator : Type := mkAllocator {
  calls : list AllocatorCall;
  fresh : nat
}.

Definition createRenderTarget (al : ResourceAllocator) (name : string)
    (attachments width height samples : Z)
    (color depth stencil : TargetBufferInfo) : ResourceAllocator * Handle :=
  (mkAllocator
     (calls al ++ [CreateRenderTarget name attachments width height samples
                                      color depth stencil])
     (S (fresh al)),
   Some (fresh al)).

Definition destroyRenderTarget (al : ResourceAllocator) (h : Handle)
    : ResourceAllocator :=
  mkAllocator (calls al ++ [DestroyRenderTarget h]) (fresh al).

Record FrameGraph : Type := mkFrameGraph {
  mResourceEntries : list TextureEntry;
  mResourceNodes : list ResourceNode;
  mResourceAllocator : ResourceAllocator
}.

Definition setEntries (fg : FrameGraph) (es : list TextureEntry) : FrameGraph :=
  mkFrameGraph es (mResourceNodes fg) (mResourceAllocator fg).

Definition setAllocator (fg : FrameGraph) (al : ResourceAllocator) : FrameGraph :=
  mkFrameGraph (mResourceEntries fg) (mResourceNodes fg) al.

(** Modelled from the spec: [FrameGraph::getResourceEntryUnchecked]
    (FrameGraph.cpp is not among the sources): the lookup from a virtual
    texture handle to its texture entry, through the resource node the
    handle indexes, as [update] does it ([resourceNodes[index].resource]).
    The result is the reference (the position in the store) and the entry
    there; a handle that names nothing is an invalid access. *)
Definition getResourceEntryUnchecked (fg : FrameGraph) (h : FrameGraphHandle)
    : outcome (nat * TextureEntry) :=
  let* node := deref (mResourceNodes fg !! Z.to_nat (index h)) in
  let* entry := deref (mResourceEntries fg !! resource node) in
  Done (resource node, entry).

(** [PassNode]: only its name is read here. *)
Record PassNode : Type := mkPassNode { pass_name : string }.

(** ** The render target entry *)

(** Modelled from the spec: [FrameGraphRenderTarget::Attachments]
    (fg/FrameGraph.h is not among the sources): three attachment slots, in
    the order color, depth, stencil; [textures] is the array of them. *)
Record Attachments : Type := mkAttachments {
  color : AttachmentInfo;
  depth : AttachmentInfo;
  stencil : AttachmentInfo
}.

Definition textures (a : Attachments) : list AttachmentInfo :=
  [color a; depth a; stencil a].

(** [Attachments::COUNT], the number of slots. *)
Definition COUNT : nat := 3.

(** [FrameGraphRenderTarget::Descriptor]. *)
Record Descriptor : Type := mkDescriptor {
  desc_attachments : Attachments;
  samples : Z;
  clearFlags : Z
}.

(** The entry's resource: [params.viewport], [params.flags] and [target]. *)
Record RenderTargetResource : Type := mkResource {
  viewport_width : Z;
  viewport_height : Z;
  flags_clear : Z;
  flags_discardStart : Z;
  flags_discardEnd : Z;
  target : Handle
}.

Record RenderTargetResourceEntry : Type := mkEntry {
  name : string;
  imported : bool;
  descriptor : Descriptor;
  rt_resource : RenderTargetResource;
  attachments : Z;
  width : Z;
  height : Z
}.

Definition setResource (rt : RenderTargetResourceEntry) (r : RenderTargetResource)
    : RenderTargetResourceEntry :=
  mkEntry (name rt) (imported rt) (descriptor rt) r
          (attachments rt) (width rt) (height rt).

(** The two constant tables of [resolve] (the first also in [update] and
    [preExecuteDevirtualize]). *)
Definition flags (i : nat) : Z := nth i [COLOR; DEPTH; STENCIL] NONE.
Definition usages (i : nat) : Z :=
  nth i [COLOR_ATTACHMENT; DEPTH_ATTACHMENT; STENCIL_ATTACHMENT] 0.

(** *** resolve *)

(** The locals of [resolve] that its loop updates. *)
Record ResolveLocals : Type := mkLocals {
  l_attachments : Z;
  minWidth : Z;
  maxWidth : Z;
  minHeight : Z;
  maxHeight : Z
}.

Definition setUsageSamples (e : TextureEntry) (usage smp : Z) : TextureEntry :=
  mkTextureEntry
    (mkTextureDescriptor (tex_width (tex_descriptor e)) (tex_height (tex_descriptor e))
                         (tex_levels (tex_descriptor e)) smp usage)
    (tex_texture e) (tex_discardStart e) (tex_discardEnd e).

(** One iteration of the loop of [resolve], for slot [i]. *)
Definition resolve_body (rt_samples : Z) (i : nat) (attachment : AttachmentInfo)
    (s : FrameGraph * ResolveLocals) : outcome (FrameGraph * ResolveLocals) :=
  if isValid attachment then
    let* r := getResourceEntryUnchecked (fst s) (getHandle attachment) in
    let entry := snd r in
    (* update usage flags for referenced attachments *)
    let usage := Z.lor (tex_usage (tex_descriptor entry)) (usages i) in
    (* update attachment sample count if not specified and usage permits it *)
    let smp :=
      if (tex_samples (tex_descriptor entry) =? 0) && none (Z.land usage SAMPLEABLE)
      then rt_samples else tex_samples (tex_descriptor entry) in
    let entry' := setUsageSamples entry usage smp in
    let fg' := setEntries (fst s) (<[fst r := entry']> (mResourceEntries (fst s))) in
    let v := snd s in
    (* figure out the min/max dimensions across all attachments *)
    let lvl := getLevel attachment in
    let w := u32 (valueForLevel lvl (tex_width (tex_descriptor entry'))) in
    let h := u32 (valueForLevel lvl (tex_height (tex_descriptor entry'))) in
    Done (fg', mkLocals (Z.lor (l_attachments v) (flags i))
                        (Z.min (minWidth v) w) (Z.max (maxWidth v) w)
                        (Z.min (minHeight v) h) (Z.max (maxHeight v) h))
  else Done s.

(** [for (size_t i = 0; i < textures.size(); i++)], from index [i] on. *)
Fixpoint resolve_loop (rt_samples : Z) (i : nat) (l : list AttachmentInfo)
    (s : FrameGraph * ResolveLocals) : outcome (FrameGraph * ResolveLocals) :=
  match l with
  | [] => Done s
  | attachment :: l' =>
      let* s' := resolve_body rt_samples i attachment s in
      resolve_loop rt_samples (S i) l' s'
  end.

Definition resolve (fg : FrameGraph) (rt : RenderTargetResourceEntry)
    : outcome (FrameGraph * RenderTargetResourceEntry) :=
  let d := descriptor rt in
  let* s := resolve_loop (samples d) 0 (textures (desc_attachments d))
              (fg, mkLocals NONE UINT32_MAX 0 UINT32_MAX 0) in
  let v := snd s in
  let res := rt_resource rt in
  if any (l_attachments v) then
    let w := if (minWidth v =? maxWidth v) && (minHeight v =? maxHeight v)
             then minWidth v else maxWidth v in
    let h := if (minWidth v =? maxWidth v) && (minHeight v =? maxHeight v)
             then minHeight v else maxHeight v in
    let unset := (viewport_width res =? 0) && (viewport_height res =? 0) in
    let res' := mkResource (if unset then w else viewport_width res)
                           (if unset then h else viewport_height res)
                           (clearFlags d)
                           (flags_discardStart res) (flags_discardEnd res)
                           (target res) in
    Done (fst s, mkEntry (name rt) (imported rt) d res' (l_attachments v) w h)
  else
    Done (fst s, mkEntry (name rt) (imported rt) d res (l_attachments v) 0 0).

(** *** update *)

(** The non-fatal diagnostic of [update]:
    "Pass %s doesn't declare rendertarget %s -- expect graphic corruptions",
    with the pass name and the render target name. *)
Inductive Diagnostic : Type :=
| DoesntDeclare (pass : string) (rendertarget : string).

(** [ASSERT_POSTCONDITION_NON_FATAL(cond, ...)]: reports when [cond] is
    false and goes on. *)
Definition ASSERT_POSTCONDITION_NON_FATAL (cond : bool) (d : Diagnostic)
    : list Diagnostic :=
  if cond then [] else [d].

(** One iteration of the loop of [update]; [s] is the pair
    ([discardStart], [discardEnd]) being built. *)
Definition update_body (fg : FrameGraph) (i : nat) (attachment : AttachmentInfo)
    (s : Z * Z) : outcome (Z * Z) :=
  if handleIsValid (getHandle attachment) then
    let* node := deref (mResourceNodes fg !! Z.to_nat (index (getHandle attachment))) in
    let* r := deref (mResourceEntries fg !! resource node) in
    Done (if tex_discardStart r then Z.lor (fst s) (flags i) else fst s,
          if tex_discardEnd r then Z.lor (snd s) (flags i) else snd s)
  else Done s.

Fixpoint update_loop (fg : FrameGraph) (i : nat) (l : list AttachmentInfo)
    (s : Z * Z) : outcome (Z * Z) :=
  match l with
  | [] => Done s
  | attachment :: l' =>
      let* s' := update_body fg i attachment s in
      update_loop fg (S i) l' s'
  end.

Definition update (fg : FrameGraph) (pass : PassNode) (rt : RenderTargetResourceEntry)
    : outcome (RenderTargetResourceEntry * list Diagnostic) :=
  let res := rt_resource rt in
  (* this update at every pass *)
  if any (attachments rt) then
    (* overwrite discard flags with the per-rendertarget (per-pass) computed value *)
    let* s := update_loop fg 0 (textures (desc_attachments (descriptor rt))) (NONE, NONE) in
    (* clear implies discarding the content of the buffer *)
    let res' := mkResource (viewport_width res) (viewport_height res) (flags_clear res)
                           (Z.lor (fst s) (flags_clear res)) (snd s) (target res) in
    (* check that this FrameGraphRenderTarget is indeed declared by this pass *)
    Done (setResource rt res',
          ASSERT_POSTCONDITION_NON_FATAL (nonnull (target res))
            (DoesntDeclare (pass_name pass) (name rt)))
  else Done (rt, []).

(** *** preExecuteDevirtualize *)

(** One iteration of the loop that fills [infos]. *)
Definition devirtualize_body (NDEBUG : bool) (fg : FrameGraph)
    (rt : RenderTargetResourceEntry) (i : nat) (attachmentInfo : AttachmentInfo)
    (infos : list TargetBufferInfo) : outcome (list TargetBufferInfo) :=
  let* _ := assert NDEBUG
              (eqb (negb (Z.land (attachments rt) (flags i) =? 0))
                   (isValid attachmentInfo)) in
  if isValid attachmentInfo then
    let* r := getResourceEntryUnchecked fg (getHandle attachmentInfo) in
    let entry := snd r in
    let info := mkTargetBufferInfo (tex_texture entry) (getLevel attachmentInfo) in
    (* the attachment buffer (texture or renderbuffer) must be valid *)
    let* _ := assert NDEBUG (nonnull (handle info)) in
    (* the attachment level must be within range *)
    let* _ := assert NDEBUG (level info <? tex_levels (tex_descriptor entry)) in
    (* if the attachment is multisampled, then the rendertarget must be too *)
    let* _ := assert NDEBUG
                ((tex_samples (tex_descriptor entry) <=? 1)
                 || (tex_samples (tex_descriptor entry) =? samples (descriptor rt))) in
    Done (<[i := info]> infos)
  else Done infos.

Fixpoint devirtualize_loop (NDEBUG : bool) (fg : FrameGraph)
    (rt : RenderTargetResourceEntry) (i : nat) (l : list AttachmentInfo)
    (infos : list TargetBufferInfo) : outcome (list TargetBufferInfo) :=
  match l with
  | [] => Done infos
  | attachmentInfo :: l' =>
      let* infos' := devirtualize_body NDEBUG fg rt i attachmentInfo infos in
      devirtualize_loop NDEBUG fg rt (S i) l' infos'
  end.

Definition preExecuteDevirtualize (NDEBUG : bool) (fg : FrameGraph)
    (rt : RenderTargetResourceEntry)
    : outcome (FrameGraph * RenderTargetResourceEntry) :=
  if negb (imported rt) then
    let* _ := assert NDEBUG (any (attachments rt)) in
    let* infos := devirtualize_loop NDEBUG fg rt 0
                    (textures (desc_attachments (descriptor rt)))
                    (replicate COUNT emptyInfo) in
    let* info0 := deref (infos !! 0%nat) in
    let* info1 := deref (infos !! 1%nat) in
    let res := rt_resource rt in
    let r := createRenderTarget (mResourceAllocator fg) (name rt)
               (attachments rt) (width rt) (height rt) (samples (descriptor rt))
               info0 info1 emptyInfo in
    Done (setAllocator fg (fst r),
          setResource rt (mkResource (viewport_width res) (viewport_height res)
                            (flags_clear res) (flags_discardStart res)
                            (flags_discardEnd res) (snd r)))
  else Done (fg, rt).

(** *** postExecuteDestroy *)

Definition postExecuteDestroy (fg : FrameGraph) (rt : RenderTargetResourceEntry)
    : FrameGraph * RenderTargetResourceEntry :=
  if negb (imported rt) then
    let res := rt_resource rt in
    if nonnull (target res) then
      (setAllocator fg (destroyRenderTarget (mResourceAllocator fg) (target res)),
       setResource rt (mkResource (viewport_width res) (viewport_height res)
                         (flags_clear res) (flags_discardStart res)
                         (flags_discardEnd res) None))
    else (fg, rt)
  else (fg, rt).

(** *** postExecuteDevirtualize *)

(** after a rendertarget has been used once, it's never cleared anymore *)
Definition postExecuteDevirtualize (fg : FrameGraph) (rt : RenderTargetResourceEntry)
    : RenderTargetResourceEntry :=
  let res := rt_resource rt in
  setResource rt (mkResource (viewport_width res) (viewport_height res)
                    NONE (flags_discardStart res) (flags_discardEnd res)
                    (target res)).

(** ** The per-pass protocol

    The frame graph applies, pass after pass, the operations below to an
    entry.  In between, the texture entries and the resource nodes may
    change on behalf of other entries and passes ([Environment]); the
    allocator's record is kept, so that it shows the calls made for this
    entry.  [resolve] is not among the operations: it runs once, before the
    first pass. *)
Inductive Op : Type :=
| Update (pass : PassNode)
| Devirtualize
| Destroy
| PostDevirtualize
| Environment (entries : list TextureEntry) (nodes : list ResourceNode).

Definition State : Type := (FrameGraph * RenderTargetResourceEntry)%type.

Definition step (NDEBUG : bool) (op : Op) (s : State) : outcome State :=
  match op with
  | Update pass => let* r := update (fst s) pass (snd s) in Done (fst s, fst r)
  | Devirtualize => preExecuteDevirtualize NDEBUG (fst s) (snd s)
  | Destroy => Done (postExecuteDestroy (fst s) (snd s))
  | PostDevirtualize => Done (fst s, postExecuteDevirtualize (fst s) (snd s))
  | Environment es ns => Done (mkFrameGraph es ns (mResourceAllocator (fst s)), snd s)
  end.

(** The states reached after each operation, up to the first that stops. *)
Fixpoint trace (NDEBUG : bool) (ops : list Op) (s : State) : list State :=
  match ops with
  | [] => []
  | op :: ops' =>
      match step NDEBUG op s with
      | Done s' => s' :: trace NDEBUG ops' s'
      | Abort _ => []
      end
  end.

(** ** Example frame graph *)

Definition tex256 : TextureEntry :=
  mkTextureEntry (mkTextureDescriptor 256 256 1 0 0) (Some 7%nat) true false.
Definition tex512x256 : TextureEntry :=
  mkTextureEntry (mkTextureDescriptor 512 256 2 0 SAMPLEABLE) (Some 8%nat) false true.
Definition tex256x512 : TextureEntry :=
  mkTextureEntry (mkTextureDescriptor 256 512 1 0 0) (Some 9%nat) false false.

Definition fg0 : FrameGraph :=
  mkFrameGraph [tex256; tex512x256; tex256x512]
               [mkResourceNode 0; mkResourceNode 1; mkResourceNode 2]
               (mkAllocator [] 100).

Definition invalid : AttachmentInfo := mkAttachmentInfo (mkHandle UNINITIALIZED) 0.
Definition att (i lvl : Z) : AttachmentInfo := mkAttachmentInfo (mkHandle i) lvl.

Definition fresh_resource (clear : Z) : RenderTargetResource :=
  mkResource 0 0 clear NONE NONE None.

(** Only a color slot: 256x256, mip level 0, 4 samples requested. *)
Definition rt_color : RenderTargetResourceEntry :=
  mkEntry "color" false (mkDescriptor (mkAttachments (att 0 0) invalid invalid) 4 COLOR)
          (fresh_resource NONE) NONE 0 0.

(** Color 512x256 and depth 256x512. *)
Definition rt_mismatch : RenderTargetResourceEntry :=
  mkEntry "mismatch" false
          (mkDescriptor (mkAttachments (att 1 0) (att 2 0) invalid) 1 NONE)
          (fresh_resource NONE) NONE 0 0.

(** Color, depth and stencil all present. *)
Definition rt_full : RenderTargetResourceEntry :=
  mkEntry "full" false
          (mkDescriptor (mkAttachments (att 0 0) (att 2 0) (att 0 0)) 1 DEPTH)
          (fresh_resource NONE) NONE 0 0.

(** The same entries once resolved in [fg0]. *)
Definition rt_color_resolved : RenderTargetResourceEntry :=
  mkEntry "color" false (descriptor rt_color)
          (mkResource 256 256 COLOR NONE NONE None) COLOR 256 256.

Definition rt_full_resolved : RenderTargetResourceEntry :=
  mkEntry "full" false (descriptor rt_full)
          (mkResource 256 512 DEPTH NONE NONE None) 7 256 512.

(** An imported entry: its real target is supplied from outside. *)
Definition rt_imported : RenderTargetResourceEntry :=
  mkEntry "imported" true (descriptor rt_color)
          (mkResource 256 256 COLOR NONE NONE (Some 42%nat)) COLOR 256 256.

Definition rt_none : RenderTargetResourceEntry :=
  mkEntry "none" false (mkDescriptor (mkAttachments invalid invalid invalid) 1 NONE)
          (fresh_resource NONE) NONE 0 0.

Definition the_pass : PassNode := mkPassNode "pass".

(** ** Specification-side notions *)

(** A valid attachment names a texture entry of the frame graph. *)
Definition bound (fg : FrameGraph) (a : AttachmentInfo) : bool :=
  negb (isValid a)
  || match getResourceEntryUnchecked fg (getHandle a) with
     | Done _ => true
     | Abort _ => false
     end.

Definition handles_ok (fg : FrameGraph) (d : Descriptor) : bool :=
  forallb (bound fg) (textures (desc_attachments d)).

(** The texture entry a valid attachment refers to. *)
Definition entryOf (fg : FrameGraph) (a : AttachmentInfo) : option (nat * TextureEntry) :=
  if isValid a then
    match getResourceEntryUnchecked fg (getHandle a) with
    | Done r => Some r
    | Abort _ => None
    end
  else None.

(** Mip-scaled width and height of a valid attachment. *)
Definition slot_size (fg : FrameGraph) (a : AttachmentInfo) : option (Z * Z) :=
  match entryOf fg a with
  | Some r =>
      Some (u32 (valueForLevel (getLevel a) (tex_width (tex_descriptor (snd r)))),
            u32 (valueForLevel (getLevel a) (tex_height (tex_descriptor (snd r)))))
  | None => None
  end.

(** The sizes of all valid slots, in slot order. *)
Fixpoint sizes (fg : FrameGraph) (l : list AttachmentInfo) : list (Z * Z) :=
  match l with
  | [] => []
  | a :: l' =>
      match slot_size fg a with
      | Some wh => wh :: sizes fg l'
      | None => sizes fg l'
      end
  end.

(** The mask of the valid slots among [l], whose first slot has index [i]. *)
Fixpoint slots_mask (i : nat) (l : list AttachmentInfo) : Z :=
  match l with
  | [] => NONE
  | a :: l' => Z.lor (if isValid a then flags i else NONE) (slots_mask (S i) l')
  end.

Definition activeSlots (d : Descriptor) : Z :=
  slots_mask 0 (textures (desc_attachments d)).

Definition has_valid_slot (d : Descriptor) : bool :=
  existsb isValid (textures (desc_attachments d)).

(** The resolved mask of an entry agrees with the validity of its slots. *)
Definition mask_consistent (rt : RenderTargetResourceEntry) : Prop :=
  attachments rt = activeSlots (descriptor rt).

(** What [resolve] leaves alone in a texture entry. *)
Definition same_geometry (e e' : TextureEntry) : Prop :=
  tex_width (tex_descriptor e') = tex_width (tex_descriptor e)
  /\ tex_height (tex_descriptor e') = tex_height (tex_descriptor e)
  /\ tex_levels (tex_descriptor e') = tex_levels (tex_descriptor e)
  /\ tex_texture e' = tex_texture e
  /\ tex_discardStart e' = tex_discardStart e
  /\ tex_discardEnd e' = tex_discardEnd e.

Definition frame (fg fg' : FrameGraph) : Prop :=
  mResourceNodes fg' = mResourceNodes fg
  /\ mResourceAllocator fg' = mResourceAllocator fg
  /\ Forall2 same_geometry (mResourceEntries fg) (mResourceEntries fg').

(** The attachment refers to the entry at position [p] of the store. *)
Definition references (fg : FrameGraph) (a : AttachmentInfo) (p : nat) : bool :=
  match entryOf fg a with
  | Some r => Nat.eqb (fst r) p
  | None => false
  end.

Definition referenced (fg : FrameGraph) (l : list AttachmentInfo) (p : nat) : bool :=
  existsb (fun a => references fg a p) l.

(** No explicit sample count, and not sampled by shaders. *)
Definition takes_samples (e : TextureEntry) : bool :=
  (tex_samples (tex_descriptor e) =? 0)
  && none (Z.land (tex_usage (tex_descriptor e)) SAMPLEABLE).

(** The entry behind the resource node that a handle indexes:
    [resourceNodes[attachment.index].resource]. *)
Definition nodeResource (fg : FrameGraph) (h : FrameGraphHandle) : option TextureEntry :=
  match mResourceNodes fg !! Z.to_nat (index h) with
  | Some node => mResourceEntries fg !! resource node
  | None => None
  end.

(** The slot is valid and the resource node of its virtual texture declares
    "discard at start" (resp. "at end"). *)
Definition discards_start (fg : FrameGraph) (a : AttachmentInfo) : bool :=
  isValid a
  && match nodeResource fg (getHandle a) with
     | Some e => tex_discardStart e
     | None => false
     end.

Definition discards_end (fg : FrameGraph) (a : AttachmentInfo) : bool :=
  isValid a
  && match nodeResource fg (getHandle a) with
     | Some e => tex_discardEnd e
     | None => false
     end.

(** The mask of the slots of [l] that [sel] selects; the first has index [i]. *)
Fixpoint mask_of (sel : AttachmentInfo -> bool) (i : nat) (l : list AttachmentInfo) : Z :=
  match l with
  | [] => NONE
  | a :: l' => Z.lor (if sel a then flags i else NONE) (mask_of sel (S i) l')
  end.

(** [update] returned and reported something. *)
Definition raises_diagnostic (o : outcome (RenderTargetResourceEntry * list Diagnostic))
    : bool :=
  match o with
  | Done (_, _ :: _) => true
  | _ => false
  end.

(** The binding record of a slot: the real texture of the entry it refers
    to and the requested mip level; the empty record for a slot that is not
    valid. *)
Definition binding (fg : FrameGraph) (a : AttachmentInfo) : TargetBufferInfo :=
  match entryOf fg a with
  | Some r => mkTargetBufferInfo (tex_texture (snd r)) (getLevel a)
  | None => emptyInfo
  end.

(** The array [infos] after the loop has visited the slots [l] from index [i]. *)
Fixpoint bindings (fg : FrameGraph) (i : nat) (l : list AttachmentInfo)
    (infos : list TargetBufferInfo) : list TargetBufferInfo :=
  match l with
  | [] => infos
  | a :: l' =>
      bindings fg (S i) l' (if isValid a then <[i := binding fg a]> infos else infos)
  end.

(** The three assertions on a valid attachment. *)
Definition attachment_ready (fg : FrameGraph) (rt_samples : Z) (a : AttachmentInfo) : bool :=
  match entryOf fg a with
  | Some r =>
      nonnull (tex_texture (snd r))
      && (getLevel a <? tex_levels (tex_descriptor (snd r)))
      && ((tex_samples (tex_descriptor (snd r)) <=? 1)
          || (tex_samples (tex_descriptor (snd r)) =? rt_samples))
  | None => true
  end.

(** All the assertions of [preExecuteDevirtualize] hold, the consistency of
    the mask aside. *)
Definition devirtualize_ready (fg : FrameGraph) (rt : RenderTargetResourceEntry) : bool :=
  any (attachments rt)
  && forallb (attachment_ready fg (samples (descriptor rt)))
       (textures (desc_attachments (descriptor rt))).

(** [n] calls of [postExecuteDestroy] in a row. *)
Fixpoint destroy_times (n : nat) (s : State) : State :=
  match n with
  | O => s
  | S n' => destroy_times n' (postExecuteDestroy (fst s) (snd s))
  end.

(** The usage flags that the slots of [l] referring to the entry at [p] ask
    for; the first slot of [l] has index [i]. *)
Fixpoint usage_requested (fg : FrameGraph) (i : nat) (l : list AttachmentInfo)
    (p : nat) : Z :=
  match l with
  | [] => 0
  | a :: l' =>
      Z.lor (if references fg a p then usages i else 0)
            (usage_requested fg (S i) l' p)
  end.

(** Counting the calls of one kind in the allocator's record. *)
Definition is_create (c : AllocatorCall) : bool :=
  match c with
  | CreateRenderTarget _ _ _ _ _ _ _ _ => true
  | DestroyRenderTarget _ => false
  end.

Definition is_destroy (c : AllocatorCall) : bool := negb (is_create c).

Fixpoint count_calls (f : AllocatorCall -> bool) (cs : list AllocatorCall) : nat :=
  match cs with
  | [] => 0
  | c :: cs' => (if f c then 1 else 0) + count_calls f cs'
  end.

(** An entry with a valid color slot whose handle names no resource node. *)
Definition rt_dangling : RenderTargetResourceEntry :=
  mkEntry "dangling" false (mkDescriptor (mkAttachments (att 9 0) invalid invalid) 1 NONE)
          (fresh_resource NONE) NONE 0 0.

(** A frame graph whose only texture has no real texture yet. *)
Definition fg_virtual : FrameGraph :=
  mkFrameGraph [mkTextureEntry (mkTextureDescriptor 64 64 1 1 0) None false false]
               [mkResourceNode 0] (mkAllocator [] 0).

(** The assertion [bool(attachments & flags[i]) == attachmentInfo.isValid()]
    for all the slots of [l], whose first slot has index [i]. *)
Fixpoint mask_agrees (mask : Z) (i : nat) (l : list AttachmentInfo) : bool :=
  match l with
  | [] => true
  | a :: l' =>
      eqb (negb (Z.land mask (flags i) =? 0)) (isValid a)
      && mask_agrees mask (S i) l'
  end.

(** An entry whose mask names the color and the depth slot although only the
    color slot is valid. *)
Definition rt_stale : RenderTargetResourceEntry :=
  mkEntry "stale" false (descriptor rt_color)
          (mkResource 256 256 COLOR NONE NONE None) (Z.lor COLOR DEPTH) 256 256.

(** ** Lemmas on the outcome monad and on masks *)

Lemma bind_Done {A B : Type} (m : outcome A) (k : A -> outcome B) (b : B) :
  bind m k = Done b -> exists a, m = Done a /\ k a = Done b.
Proof. destruct m as [a|f]; simpl; [eauto | discriminate]. Qed.

Lemma deref_Done {A : Type} (o : option A) (a : A) :
  deref o = Done a <-> o = Some a.
Proof. destruct o; simpl; split; congruence. Qed.

Lemma getResourceEntryUnchecked_Done fg h p e :
  getResourceEntryUnchecked fg h = Done (p, e) <->
  exists node, mResourceNodes fg !! Z.to_nat (index h) = Some node
               /\ resource node = p /\ mResourceEntries fg !! p = Some e.
Proof.
  unfold getResourceEntryUnchecked. split.
  - intros H. apply bind_Done in H as (node & Hn & H).
    apply bind_Done in H as (e0 & He & H).
    apply deref_Done in Hn. apply deref_Done in He.
    injection H as <- <-. eauto.
  - intros (node & Hn & <- & He). rewrite Hn. simpl. rewrite He. reflexivity.
Qed.

#[local] Instance same_geometry_refl : Reflexive same_geometry.
Proof. intros e. unfold same_geometry. tauto. Qed.

#[local] Instance same_geometry_trans : Transitive same_geometry.
Proof.
  intros a b c (?&?&?&?&?&?) (?&?&?&?&?&?). unfold same_geometry.
  repeat split; etransitivity; eassumption.
Qed.

Lemma frame_refl fg : frame fg fg.
Proof. unfold frame. repeat split. apply Forall2_same_length_lookup_2; [done|]. intros i x y ? ?. simplify_eq. reflexivity. Qed.

Lemma frame_trans fg1 fg2 fg3 : frame fg1 fg2 -> frame fg2 fg3 -> frame fg1 fg3.
Proof.
  intros (Hn & Ha & He) (Hn' & Ha' & He'). unfold frame.
  repeat split; try congruence. etransitivity; eassumption.
Qed.

(** Under [frame], a handle resolves to the same reference, and to an entry
    of the same geometry. *)
Lemma frame_lookup fg fg' h p e :
  frame fg fg' -> getResourceEntryUnchecked fg h = Done (p, e) ->
  exists e', getResourceEntryUnchecked fg' h = Done (p, e') /\ same_geometry e e'.
Proof.
  intros (Hn & _ & He) H. apply getResourceEntryUnchecked_Done in H as (node & Hnode & Hp & Hl).
  destruct (Forall2_lookup_l _ _ _ _ _ He Hl) as (e' & Hl' & Hg).
  exists e'. split; [|exact Hg].
  apply getResourceEntryUnchecked_Done. exists node. rewrite Hn. auto.
Qed.

Lemma frame_sym_lookup fg fg' h p e' :
  frame fg fg' -> getResourceEntryUnchecked fg' h = Done (p, e') ->
  exists e, getResourceEntryUnchecked fg h = Done (p, e) /\ same_geometry e e'.
Proof.
  intros (Hn & _ & He) H. apply getResourceEntryUnchecked_Done in H as (node & Hnode & Hp & Hl).
  destruct (Forall2_lookup_r _ _ _ _ _ He Hl) as (e & Hl' & Hg).
  exists e. split; [|exact Hg].
  apply getResourceEntryUnchecked_Done. exists node. rewrite <- Hn. auto.
Qed.

Lemma frame_entryOf fg fg' a :
  frame fg fg' ->
  match entryOf fg a, entryOf fg' a with
  | Some r, Some r' => fst r' = fst r /\ same_geometry (snd r) (snd r')
  | None, None => True
  | _, _ => False
  end.
Proof.
  intros Hf. unfold entryOf. destruct (isValid a); [|exact I].
  destruct (getResourceEntryUnchecked fg (getHandle a)) as [[p e]|f] eqn:E.
  - destruct (frame_lookup _ _ _ _ _ Hf E) as (e' & -> & Hg). simpl. auto.
  - destruct (getResourceEntryUnchecked fg' (getHandle a)) as [[p e']|f'] eqn:E'; [|exact I].
    destruct (frame_sym_lookup _ _ _ _ _ Hf E') as (e & He & _). congruence.
Qed.

Lemma frame_slot_size fg fg' a : frame fg fg' -> slot_size fg' a = slot_size fg a.
Proof.
  intros Hf. pose proof (frame_entryOf fg fg' a Hf) as H. unfold slot_size.
  destruct (entryOf fg a) as [r|], (entryOf fg' a) as [r'|]; try tauto.
  destruct H as (_ & Hw & Hh & _). rewrite Hw, Hh. reflexivity.
Qed.

Lemma frame_sizes fg fg' l : frame fg fg' -> sizes fg' l = sizes fg l.
Proof.
  intros Hf. induction l as [|a l IH]; simpl; [reflexivity|].
  rewrite (frame_slot_size fg fg' a Hf), IH. reflexivity.
Qed.

Lemma bound_entryOf fg a :
  bound fg a = true <-> (isValid a = true -> is_Some (entryOf fg a)).
Proof.
  unfold bound, entryOf. destruct (isValid a); simpl.
  - destruct (getResourceEntryUnchecked fg (getHandle a)); split; intros H; eauto.
    + discriminate.
    + destruct (H eq_refl) as [? ?]. discriminate.
  - split; [discriminate | reflexivity].
Qed.

Lemma frame_bound fg fg' a : frame fg fg' -> bound fg' a = bound fg a.
Proof.
  intros Hf. pose proof (frame_entryOf fg fg' a Hf) as H.
  apply eq_true_iff_eq. rewrite !bound_entryOf.
  destruct (entryOf fg a), (entryOf fg' a); try tauto;
    split; intros; eauto.
Qed.

Lemma frame_forallb_bound fg fg' l :
  frame fg fg' -> forallb (bound fg') l = forallb (bound fg) l.
Proof.
  intros Hf. induction l as [|a l IH]; simpl; [reflexivity|].
  rewrite (frame_bound fg fg' a Hf), IH. reflexivity.
Qed.

(** *** One iteration of [resolve] *)

Lemma setUsageSamples_geometry e u s : same_geometry e (setUsageSamples e u s).
Proof. unfold same_geometry, setUsageSamples. simpl. tauto. Qed.

Lemma store_frame fg p e e' :
  mResourceEntries fg !! p = Some e -> same_geometry e e' ->
  frame fg (setEntries fg (<[p := e']> (mResourceEntries fg))).
Proof.
  intros Hl Hg. unfold frame, setEntries. simpl. repeat split.
  apply Forall2_same_length_lookup_2.
  - rewrite length_insert. reflexivity.
  - intros i x y Hx Hy. destruct (decide (i = p)) as [->|Hne].
    + rewrite list_lookup_insert_eq in Hy by (eapply lookup_lt_Some; eassumption).
      simplify_eq. exact Hg.
    + rewrite list_lookup_insert_ne in Hy by congruence. simplify_eq. reflexivity.
Qed.

Lemma resolve_body_spec S i a fg v :
  bound fg a = true ->
  exists fg' v',
    resolve_body S i a (fg, v) = Done (fg', v')
    /\ frame fg fg'
    /\ l_attachments v' = Z.lor (l_attachments v) (if isValid a then flags i else NONE)
    /\ match slot_size fg a with
       | Some wh =>
           minWidth v' = Z.min (minWidth v) (fst wh)
           /\ maxWidth v' = Z.max (maxWidth v) (fst wh)
           /\ minHeight v' = Z.min (minHeight v) (snd wh)
           /\ maxHeight v' = Z.max (maxHeight v) (snd wh)
       | None => v' = v
       end.
Proof.
  intros Hb. unfold resolve_body, slot_size, entryOf. unfold bound in Hb.
  destruct (isValid a) eqn:Hv; simpl in *.
  - destruct (getResourceEntryUnchecked fg (getHandle a)) as [[p e]|f] eqn:E; [|discriminate].
    simpl. eexists _, _. split; [reflexivity|].
    apply getResourceEntryUnchecked_Done in E as (node & _ & _ & Hl).
    split; [eapply store_frame; [eassumption | apply setUsageSamples_geometry]|].
    simpl. auto.
  - exists fg, v. split; [reflexivity|]. split; [apply frame_refl|].
    split; [|reflexivity]. unfold NONE. rewrite Z.lor_0_r. reflexivity.
Qed.

(** *** The loop of [resolve] *)

Lemma resolve_loop_spec S l :
  forall i fg v,
    forallb (bound fg) l = true ->
    exists fg' v',
      resolve_loop S i l (fg, v) = Done (fg', v')
      /\ frame fg fg'
      /\ l_attachments v' = Z.lor (l_attachments v) (slots_mask i l)
      /\ minWidth v' = fold_left Z.min (map fst (sizes fg l)) (minWidth v)
      /\ maxWidth v' = fold_left Z.max (map fst (sizes fg l)) (maxWidth v)
      /\ minHeight v' = fold_left Z.min (map snd (sizes fg l)) (minHeight v)
      /\ maxHeight v' = fold_left Z.max (map snd (sizes fg l)) (maxHeight v).
Proof.
  induction l as [|a l IH]; intros i fg v Hb; simpl in *.
  - exists fg, v. split; [reflexivity|]. split; [apply frame_refl|].
    unfold NONE. rewrite Z.lor_0_r. auto.
  - apply andb_true_iff in Hb as [Ha Hl].
    destruct (resolve_body_spec S i a fg v Ha) as (fg1 & v1 & E1 & Hf1 & Hm1 & Hs1).
    rewrite <- (frame_forallb_bound fg fg1 l Hf1) in Hl.
    destruct (IH (Datatypes.S i) fg1 v1 Hl) as (fg2 & v2 & E2 & Hf2 & Hm2 & H2).
    exists fg2, v2. rewrite E1. simpl. split; [exact E2|].
    split; [eapply frame_trans; eassumption|].
    split; [rewrite Hm2, Hm1, Z.lor_assoc; reflexivity|].
    rewrite (frame_sizes fg fg1 l Hf1) in H2.
    destruct (slot_size fg a) as [wh|]; simpl.
    + destruct Hs1 as (Ha1 & Hb1 & Hc1 & Hd1).
      rewrite Ha1, Hb1, Hc1, Hd1 in H2. exact H2.
    + subst v1. exact H2.
Qed.

(** *** Running maximum *)

Lemma fold_max_ge l : forall m, m <= fold_left Z.max l m.
Proof.
  induction l as [|x l IH]; intros m; simpl; [lia|].
  specialize (IH (Z.max m x)). lia.
Qed.

Lemma fold_max_upper l : forall m, Forall (fun x => x <= fold_left Z.max l m) l.
Proof.
  induction l as [|x l IH]; intros m; simpl; constructor.
  - pose proof (fold_max_ge l (Z.max m x)). lia.
  - apply IH.
Qed.

Lemma fold_max_attained l : forall m,
  fold_left Z.max l m = m \/ In (fold_left Z.max l m) l.
Proof.
  induction l as [|x l IH]; intros m; simpl; [auto|].
  destruct (IH (Z.max m x)) as [H|H]; [|auto].
  rewrite H. destruct (Z.max_spec m x) as [[_ ->]|[_ ->]]; auto.
Qed.

Lemma fold_max_nonneg_attained l :
  l <> [] -> Forall (fun x => 0 <= x) l -> In (fold_left Z.max l 0) l.
Proof.
  intros Hne Hpos. destruct (fold_max_attained l 0) as [H|H]; [|exact H].
  destruct l as [|x l]; [congruence|].
  pose proof (fold_max_upper (x :: l) 0) as Hu. rewrite H in Hu.
  inversion Hu as [|? ? Hx Hl]; subst. inversion Hpos as [|? ? Hx' Hl']; subst.
  assert (x = 0) by lia. subst x. rewrite H. left. reflexivity.
Qed.

(** *** Sizes and masks of the slots *)

Lemma u32_range x : 0 <= u32 x < 4294967296.
Proof. unfold u32. apply Z.mod_pos_bound. lia. Qed.

(** For a [uint32_t] dimension and a mip level, the mip-scaled value is the
    plain right shift: the conversion to [uint32_t] loses nothing. *)
Lemma mip_scaled_in_range lvl v :
  0 <= lvl -> 0 <= v < 4294967296 -> u32 (valueForLevel lvl v) = Z.shiftr v lvl.
Proof.
  intros Hl Hv. unfold u32, valueForLevel. rewrite Z.shiftr_div_pow2 by exact Hl.
  assert (Hp : 0 < 2 ^ lvl) by (apply Z.pow_pos_nonneg; lia).
  apply Z.mod_small. split; [apply Z.div_pos; lia|].
  apply Z.le_lt_trans with v; [|lia].
  apply Z.div_le_upper_bound; [exact Hp | nia].
Qed.

Lemma sizes_nonneg fg l :
  Forall (fun wh : Z * Z => 0 <= fst wh /\ 0 <= snd wh) (sizes fg l).
Proof.
  induction l as [|a l IH]; simpl; [constructor|].
  destruct (slot_size fg a) as [wh|] eqn:E; [|exact IH].
  constructor; [|exact IH]. unfold slot_size in E.
  destruct (entryOf fg a); [|discriminate]. injection E as <-. simpl.
  split; apply u32_range.
Qed.

Lemma sizes_nil fg l :
  forallb (bound fg) l = true -> (sizes fg l = [] <-> existsb isValid l = false).
Proof.
  induction l as [|a l IH]; simpl; intros Hb; [tauto|].
  apply andb_true_iff in Hb as [Ha Hl]. specialize (IH Hl).
  pose proof (proj1 (bound_entryOf fg a) Ha) as Ha'. unfold slot_size.
  destruct (isValid a) eqn:Hv; simpl.
  - destruct (Ha' eq_refl) as [r ->]. split; discriminate.
  - unfold entryOf. rewrite Hv. exact IH.
Qed.

Lemma activeSlots_any d : any (activeSlots d) = has_valid_slot d.
Proof.
  unfold activeSlots, has_valid_slot, textures. simpl.
  destruct (isValid (color (desc_attachments d))),
           (isValid (depth (desc_attachments d))),
           (isValid (stencil (desc_attachments d))); reflexivity.
Qed.

(** *** What [resolve] computes *)

Lemma resolve_spec fg rt :
  handles_ok fg (descriptor rt) = true ->
  exists fg' rt',
    resolve fg rt = Done (fg', rt')
    /\ frame fg fg'
    /\ name rt' = name rt /\ imported rt' = imported rt
    /\ descriptor rt' = descriptor rt
    /\ target (rt_resource rt') = target (rt_resource rt)
    /\ attachments rt' = activeSlots (descriptor rt)
    /\ width rt' =
         (if has_valid_slot (descriptor rt)
          then fold_left Z.max
                 (map fst (sizes fg (textures (desc_attachments (descriptor rt))))) 0
          else 0)
    /\ height rt' =
         (if has_valid_slot (descriptor rt)
          then fold_left Z.max
                 (map snd (sizes fg (textures (desc_attachments (descriptor rt))))) 0
          else 0).
Proof.
  intros Hok. unfold handles_ok in Hok. unfold resolve.
  destruct (resolve_loop_spec (samples (descriptor rt)) _ 0%nat fg
              (mkLocals NONE UINT32_MAX 0 UINT32_MAX 0) Hok)
    as (fg' & v' & E & Hf & Hm & Hminw & Hmaxw & Hminh & Hmaxh).
  rewrite E. cbn [bind fst snd].
  change (l_attachments v' = Z.lor 0 (activeSlots (descriptor rt))) in Hm.
  rewrite Z.lor_0_l in Hm. cbn [maxWidth maxHeight] in Hmaxw, Hmaxh.
  rewrite Hm, activeSlots_any.
  destruct (has_valid_slot (descriptor rt)).
  - eexists _, _. split; [reflexivity|].
    cbn [name imported descriptor rt_resource attachments width height target].
    repeat (split; [solve [auto]|]).
    rewrite <- Hmaxw, <- Hmaxh.
    destruct ((minWidth v' =? maxWidth v') && (minHeight v' =? maxHeight v')) eqn:C.
    + apply andb_true_iff in C as [C1 C2]. apply Z.eqb_eq in C1, C2. auto.
    + auto.
  - eexists _, _. split; [reflexivity|].
    cbn [name imported descriptor rt_resource attachments width height target].
    auto 10.
Qed.

Lemma resolve_mask_consistent fg rt fg' rt' :
  handles_ok fg (descriptor rt) = true ->
  resolve fg rt = Done (fg', rt') -> mask_consistent rt'.
Proof.
  intros Hok E. destruct (resolve_spec fg rt Hok) as (fg1 & rt1 & E1 & H).
  rewrite E in E1. injection E1 as <- <-.
  destruct H as (_ & _ & _ & Hd & _ & Hm & _). unfold mask_consistent.
  rewrite Hm, Hd. reflexivity.
Qed.

(** C1.  For every entry whose valid attachments name texture entries,
    [resolve] returns, and the resolved width and height are: zero when no
    slot is valid; otherwise the maximum, per axis, of the mip-scaled sizes
    of the valid slots (an upper bound of all of them that one of them
    attains), which is the common size when all valid slots agree. *)
Theorem resolve_dimensions fg rt :
  handles_ok fg (descriptor rt) = true ->
  exists fg' rt',
    resolve fg rt = Done (fg', rt')
    /\ let ws := sizes fg (textures (desc_attachments (descriptor rt))) in
       (has_valid_slot (descriptor rt) = false ->
          ws = [] /\ width rt' = 0 /\ height rt' = 0)
       /\ (has_valid_slot (descriptor rt) = true ->
             ws <> []
             /\ Forall (fun wh => fst wh <= width rt' /\ snd wh <= height rt') ws
             /\ In (width rt') (map fst ws)
             /\ In (height rt') (map snd ws)
             /\ forall w h, Forall (fun wh => wh = (w, h)) ws ->
                  width rt' = w /\ height rt' = h).
Proof.
  intros Hok. destruct (resolve_spec fg rt Hok)
    as (fg' & rt' & E & _ & _ & _ & _ & _ & _ & Hw & Hh).
  exists fg', rt'. split; [exact E|]. cbv zeta.
  pose proof (sizes_nil fg _ Hok) as Hnil. fold (has_valid_slot (descriptor rt)) in Hnil.
  set (ws := sizes fg (textures (desc_attachments (descriptor rt)))) in *.
  split; intros Hv; rewrite Hv in Hw, Hh.
  - split; [apply Hnil; exact Hv | auto].
  - assert (Hne : ws <> []) by (rewrite Hnil, Hv; discriminate).
    pose proof (sizes_nonneg fg (textures (desc_attachments (descriptor rt)))) as Hpos.
    fold ws in Hpos.
    assert (Hinw : In (width rt') (map fst ws)).
    { rewrite Hw. apply fold_max_nonneg_attained.
      - destruct ws; [congruence | discriminate].
      - apply Forall_map. eapply Forall_impl; [exact Hpos|]. simpl. tauto. }
    assert (Hinh : In (height rt') (map snd ws)).
    { rewrite Hh. apply fold_max_nonneg_attained.
      - destruct ws; [congruence | discriminate].
      - apply Forall_map. eapply Forall_impl; [exact Hpos|]. simpl. tauto. }
    split; [exact Hne|]. split; [|split; [exact Hinw|split; [exact Hinh|]]].
    + pose proof (fold_max_upper (map fst ws) 0) as Uw.
      pose proof (fold_max_upper (map snd ws) 0) as Uh.
      rewrite <- Hw in Uw. rewrite <- Hh in Uh.
      rewrite Forall_map in Uw. rewrite Forall_map in Uh.
      rewrite Forall_forall in *. intros wh Hin. split; [apply Uw|apply Uh]; exact Hin.
    + intros w h Hall. rewrite Forall_forall in Hall.
      apply in_map_iff in Hinw as (x & Hx & Hinx).
      apply in_map_iff in Hinh as (y & Hy & Hiny).
      apply list_elem_of_In in Hinx, Hiny.
      rewrite (Hall x Hinx) in Hx. rewrite (Hall y Hiny) in Hy. simpl in *. auto.
Qed.

Lemma resolve_dimensions_witness :
  handles_ok fg0 (descriptor rt_mismatch) = true
  /\ exists fg' rt',
       resolve fg0 rt_mismatch = Done (fg', rt')
       /\ let ws := sizes fg0 (textures (desc_attachments (descriptor rt_mismatch))) in
          (has_valid_slot (descriptor rt_mismatch) = false ->
             ws = [] /\ width rt' = 0 /\ height rt' = 0)
          /\ (has_valid_slot (descriptor rt_mismatch) = true ->
                ws <> []
                /\ Forall (fun wh => fst wh <= width rt' /\ snd wh <= height rt') ws
                /\ In (width rt') (map fst ws)
                /\ In (height rt') (map snd ws)
                /\ forall w h, Forall (fun wh => wh = (w, h)) ws ->
                     width rt' = w /\ height rt' = h).
Proof.
  split; [reflexivity | apply (resolve_dimensions fg0 rt_mismatch); reflexivity].
Defined.

(** The two scenarios of the spec: a lone 256x256 color slot, and color
    512x256 with depth 256x512. *)
Example resolve_color_256 :
  exists fg' rt', resolve fg0 rt_color = Done (fg', rt')
                  /\ width rt' = 256 /\ height rt' = 256 /\ attachments rt' = COLOR.
Proof. eexists _, _. split; [reflexivity|]. repeat split. Qed.

Example resolve_mismatch_512 :
  exists fg' rt', resolve fg0 rt_mismatch = Done (fg', rt')
                  /\ width rt' = 512 /\ height rt' = 512.
Proof. eexists _, _. split; [reflexivity|]. repeat split. Qed.

Example resolve_none_zero :
  exists fg' rt', resolve fg0 rt_none = Done (fg', rt')
                  /\ width rt' = 0 /\ height rt' = 0 /\ attachments rt' = NONE.
Proof. eexists _, _. split; [reflexivity|]. repeat split. Qed.

(** C10.  [resolve] recomputes the mask, the width and the height from
    nothing: they depend on the attachment set and on the sizes of the
    referenced texture entries only, whatever the entry held before (even
    in another frame graph with the same sizes), and a second [resolve]
    right after the first returns the same three values. *)
Theorem resolve_idempotent fg rt :
  handles_ok fg (descriptor rt) = true ->
  exists fg1 rt1 fg2 rt2,
    resolve fg rt = Done (fg1, rt1)
    /\ resolve fg1 rt1 = Done (fg2, rt2)
    /\ attachments rt2 = attachments rt1
    /\ width rt2 = width rt1
    /\ height rt2 = height rt1
    /\ forall fgB rtB,
         descriptor rtB = descriptor rt ->
         handles_ok fgB (descriptor rtB) = true ->
         sizes fgB (textures (desc_attachments (descriptor rt)))
           = sizes fg (textures (desc_attachments (descriptor rt))) ->
         exists fgB' rtB',
           resolve fgB rtB = Done (fgB', rtB')
           /\ attachments rtB' = attachments rt1
           /\ width rtB' = width rt1
           /\ height rtB' = height rt1.
Proof.
  intros Hok.
  destruct (resolve_spec fg rt Hok)
    as (fg1 & rt1 & E1 & Hf1 & _ & _ & Hd1 & _ & Hm1 & Hw1 & Hh1).
  assert (Hok1 : handles_ok fg1 (descriptor rt1) = true).
  { unfold handles_ok in *. rewrite Hd1, (frame_forallb_bound fg fg1 _ Hf1). exact Hok. }
  destruct (resolve_spec fg1 rt1 Hok1)
    as (fg2 & rt2 & E2 & _ & _ & _ & _ & _ & Hm2 & Hw2 & Hh2).
  exists fg1, rt1, fg2, rt2. split; [exact E1|]. split; [exact E2|].
  rewrite Hd1 in Hm2, Hw2, Hh2. rewrite (frame_sizes fg fg1 _ Hf1) in Hw2, Hh2.
  split; [congruence|]. split; [congruence|]. split; [congruence|].
  intros fgB rtB HdB HokB Hs.
  destruct (resolve_spec fgB rtB HokB)
    as (fgB' & rtB' & EB & _ & _ & _ & _ & _ & HmB & HwB & HhB).
  exists fgB', rtB'. split; [exact EB|].
  rewrite HdB in HmB, HwB, HhB. rewrite Hs in HwB, HhB.
  split; [congruence|]. split; congruence.
Qed.

Lemma resolve_idempotent_witness :
  handles_ok fg0 (descriptor rt_full) = true
  /\ exists fg1 rt1 fg2 rt2,
       resolve fg0 rt_full = Done (fg1, rt1)
       /\ resolve fg1 rt1 = Done (fg2, rt2)
       /\ attachments rt2 = attachments rt1
       /\ width rt2 = width rt1
       /\ height rt2 = height rt1
       /\ forall fgB rtB,
            descriptor rtB = descriptor rt_full ->
            handles_ok fgB (descriptor rtB) = true ->
            sizes fgB (textures (desc_attachments (descriptor rt_full)))
              = sizes fg0 (textures (desc_attachments (descriptor rt_full))) ->
            exists fgB' rtB',
              resolve fgB rtB = Done (fgB', rtB')
              /\ attachments rtB' = attachments rt1
              /\ width rtB' = width rt1
              /\ height rtB' = height rt1.
Proof.
  split; [reflexivity | apply (resolve_idempotent fg0 rt_full); reflexivity].
Defined.

(** *** Sample counts written by [resolve] *)

Lemma usages_not_sampleable u i :
  Z.land (Z.lor u (usages i)) SAMPLEABLE = Z.land u SAMPLEABLE.
Proof.
  rewrite Z.land_lor_distr_l.
  assert (H : Z.land (usages i) SAMPLEABLE = 0)
    by (destruct i as [|[|[|[|i]]]]; reflexivity).
  rewrite H. apply Z.lor_0_r.
Qed.

Lemma frame_references fg fg' a p :
  frame fg fg' -> references fg' a p = references fg a p.
Proof.
  intros Hf. pose proof (frame_entryOf fg fg' a Hf) as H. unfold references.
  destruct (entryOf fg a), (entryOf fg' a); try tauto.
  destruct H as [-> _]. reflexivity.
Qed.

Lemma frame_referenced fg fg' l p :
  frame fg fg' -> referenced fg' l p = referenced fg l p.
Proof.
  intros Hf. unfold referenced. induction l as [|a l IH]; simpl; [reflexivity|].
  rewrite (frame_references fg fg' a p Hf), IH. reflexivity.
Qed.

Lemma resolve_body_samples S i a fg v fg1 v1 :
  resolve_body S i a (fg, v) = Done (fg1, v1) ->
  forall p e, mResourceEntries fg !! p = Some e ->
    exists e1, mResourceEntries fg1 !! p = Some e1
      /\ tex_samples (tex_descriptor e1)
           = (if references fg a p && takes_samples e
              then S else tex_samples (tex_descriptor e))
      /\ Z.land (tex_usage (tex_descriptor e1)) SAMPLEABLE
           = Z.land (tex_usage (tex_descriptor e)) SAMPLEABLE.
Proof.
  unfold resolve_body, references, entryOf. intros H p e Hl.
  destruct (isValid a); simpl in H.
  - destruct (getResourceEntryUnchecked fg (getHandle a)) as [[q eq]|f] eqn:E;
      [|discriminate].
    simpl in H. injection H as <- <-. simpl.
    apply getResourceEntryUnchecked_Done in E as (node & _ & _ & Hq).
    destruct (Nat.eqb_spec q p) as [->|Hne].
    + rewrite list_lookup_insert_eq by (eapply lookup_lt_Some; eassumption).
      rewrite Hl in Hq. injection Hq as <-.
      eexists. split; [reflexivity|]. simpl. unfold takes_samples.
      rewrite usages_not_sampleable. auto.
    + rewrite list_lookup_insert_ne by exact Hne. exists e. auto.
  - injection H as <- <-. exists e. auto.
Qed.

Lemma resolve_loop_samples S l :
  forall i fg v fg' v',
    resolve_loop S i l (fg, v) = Done (fg', v') ->
    forallb (bound fg) l = true ->
    forall p e, mResourceEntries fg !! p = Some e ->
      exists e', mResourceEntries fg' !! p = Some e'
        /\ tex_samples (tex_descriptor e')
             = (if referenced fg l p && takes_samples e
                then S else tex_samples (tex_descriptor e))
        /\ Z.land (tex_usage (tex_descriptor e')) SAMPLEABLE
             = Z.land (tex_usage (tex_descriptor e)) SAMPLEABLE.
Proof.
  induction l as [|a l IH]; intros i fg v fg' v' H Hb p e Hl; simpl in *.
  - injection H as <- <-. exists e. auto.
  - apply andb_true_iff in Hb as [Ha Hbl].
    destruct (resolve_body_spec S i a fg v Ha) as (fg1 & v1 & E1 & Hf1 & _).
    rewrite E1 in H. simpl in H.
    destruct (resolve_body_samples _ _ _ _ _ _ _ E1 p e Hl) as (e1 & Hl1 & Hs1 & Hu1).
    rewrite <- (frame_forallb_bound fg fg1 l Hf1) in Hbl.
    destruct (IH _ _ _ _ _ H Hbl p e1 Hl1) as (e' & Hl' & Hs' & Hu').
    exists e'. split; [exact Hl'|]. split; [|congruence].
    rewrite (frame_referenced fg fg1 l p Hf1) in Hs'.
    rewrite Hs'. unfold takes_samples in *. rewrite Hu1, Hs1.
    destruct (references fg a p), (referenced fg l p),
             (none (Z.land (tex_usage (tex_descriptor e)) SAMPLEABLE)),
             (tex_samples (tex_descriptor e) =? 0) eqn:Z0; simpl;
      try reflexivity; try rewrite Z0; simpl; try reflexivity;
      destruct (S =? 0); reflexivity.
Qed.

Lemma resolve_inv fg rt fg' rt' :
  resolve fg rt = Done (fg', rt') ->
  exists v', resolve_loop (samples (descriptor rt)) 0
               (textures (desc_attachments (descriptor rt)))
               (fg, mkLocals NONE UINT32_MAX 0 UINT32_MAX 0) = Done (fg', v').
Proof.
  unfold resolve. intros H. apply bind_Done in H as ([fg1 v1] & E & H).
  exists v1. rewrite E. simpl in H.
  destruct (any (l_attachments v1)); injection H as <- _; reflexivity.
Qed.

(** C7.  [resolve] returns, and for each valid attachment slot the texture
    entry it refers to ends with the render target's requested sample count
    when that entry had no sample count and is not sampled by shaders, and
    with its former sample count otherwise; an entry that no valid slot
    refers to keeps its sample count. *)
Theorem resolve_sample_count fg rt :
  handles_ok fg (descriptor rt) = true ->
  exists fg' rt',
    resolve fg rt = Done (fg', rt')
    /\ (forall a p e,
          In a (textures (desc_attachments (descriptor rt))) ->
          entryOf fg a = Some (p, e) ->
          exists e', mResourceEntries fg' !! p = Some e'
            /\ tex_samples (tex_descriptor e')
                 = if (tex_samples (tex_descriptor e) =? 0)
                      && none (Z.land (tex_usage (tex_descriptor e)) SAMPLEABLE)
                   then samples (descriptor rt)
                   else tex_samples (tex_descriptor e))
    /\ (forall p e,
          mResourceEntries fg !! p = Some e ->
          referenced fg (textures (desc_attachments (descriptor rt))) p = false ->
          exists e', mResourceEntries fg' !! p = Some e'
            /\ tex_samples (tex_descriptor e') = tex_samples (tex_descriptor e)).
Proof.
  intros Hok. destruct (resolve_spec fg rt Hok) as (fg' & rt' & E & _).
  exists fg', rt'. split; [exact E|].
  destruct (resolve_inv _ _ _ _ E) as (v' & EL).
  pose proof (resolve_loop_samples _ _ _ _ _ _ _ EL Hok) as HS.
  split.
  - intros a p e Hin Ha.
    assert (Hl : mResourceEntries fg !! p = Some e).
    { unfold entryOf in Ha. destruct (isValid a); [|discriminate].
      destruct (getResourceEntryUnchecked fg (getHandle a)) as [r|] eqn:G; [|discriminate].
      injection Ha as ->. apply getResourceEntryUnchecked_Done in G as (? & _ & _ & G).
      exact G. }
    destruct (HS p e Hl) as (e' & Hl' & Hs & _). exists e'. split; [exact Hl'|].
    assert (Hr : referenced fg (textures (desc_attachments (descriptor rt))) p = true).
    { unfold referenced. apply existsb_exists. exists a. split; [exact Hin|].
      unfold references. rewrite Ha. simpl. apply Nat.eqb_refl. }
    rewrite Hr in Hs. exact Hs.
  - intros p e Hl Hr. destruct (HS p e Hl) as (e' & Hl' & Hs & _).
    exists e'. split; [exact Hl'|]. rewrite Hr in Hs. exact Hs.
Qed.

Lemma resolve_sample_count_witness :
  handles_ok fg0 (descriptor rt_color) = true
  /\ exists fg' rt',
       resolve fg0 rt_color = Done (fg', rt')
       /\ (forall a p e,
             In a (textures (desc_attachments (descriptor rt_color))) ->
             entryOf fg0 a = Some (p, e) ->
             exists e', mResourceEntries fg' !! p = Some e'
               /\ tex_samples (tex_descriptor e')
                    = if (tex_samples (tex_descriptor e) =? 0)
                         && none (Z.land (tex_usage (tex_descriptor e)) SAMPLEABLE)
                      then samples (descriptor rt_color)
                      else tex_samples (tex_descriptor e))
       /\ (forall p e,
             mResourceEntries fg0 !! p = Some e ->
             referenced fg0 (textures (desc_attachments (descriptor rt_color))) p = false ->
             exists e', mResourceEntries fg' !! p = Some e'
               /\ tex_samples (tex_descriptor e') = tex_samples (tex_descriptor e)).
Proof.
  split; [reflexivity | apply (resolve_sample_count fg0 rt_color); reflexivity].
Defined.

(** The scenario of the spec: the 256x256 texture of the lone color slot had
    no sample count and takes the 4 samples of the render target; a texture
    that shaders sample keeps its own. *)
Example resolve_color_samples :
  exists fg' rt', resolve fg0 rt_color = Done (fg', rt')
    /\ tex_samples <$> (tex_descriptor <$> mResourceEntries fg' !! 0%nat) = Some 4.
Proof. eexists _, _. split; reflexivity. Qed.

Example resolve_sampled_keeps :
  exists fg' rt', resolve fg0 rt_mismatch = Done (fg', rt')
    /\ tex_samples <$> (tex_descriptor <$> mResourceEntries fg' !! 1%nat) = Some 0
    /\ tex_samples <$> (tex_descriptor <$> mResourceEntries fg' !! 2%nat) = Some 1.
Proof. eexists _, _. split; [reflexivity|]. split; reflexivity. Qed.

(** *** update *)

Lemma bound_nodeResource fg a :
  bound fg a = true -> isValid a = true -> is_Some (nodeResource fg (getHandle a)).
Proof.
  unfold bound, nodeResource, getResourceEntryUnchecked. intros H Hv.
  rewrite Hv in H. simpl in H.
  destruct (mResourceNodes fg !! Z.to_nat (index (getHandle a))) as [node|];
    simpl in H; [|discriminate].
  destruct (mResourceEntries fg !! resource node); simpl in H; [eauto | discriminate].
Qed.

Lemma update_body_spec fg i a s :
  bound fg a = true ->
  update_body fg i a s
  = Done (Z.lor (fst s) (if discards_start fg a then flags i else NONE),
          Z.lor (snd s) (if discards_end fg a then flags i else NONE)).
Proof.
  intros Hb. pose proof (bound_nodeResource fg a Hb) as Hn.
  unfold update_body, discards_start, discards_end, nodeResource in *.
  unfold isValid, getHandle in *. destruct (handleIsValid (mHandle a)); simpl.
  - destruct (Hn eq_refl) as [e He].
    destruct (mResourceNodes fg !! Z.to_nat (index (mHandle a))) as [node|];
      [|discriminate].
    simpl. rewrite He. simpl. unfold NONE.
    destruct (tex_discardStart e), (tex_discardEnd e); rewrite ?Z.lor_0_r; reflexivity.
  - unfold NONE. rewrite !Z.lor_0_r. destruct s; reflexivity.
Qed.

Lemma update_loop_spec fg l :
  forall i s,
    forallb (bound fg) l = true ->
    update_loop fg i l s
    = Done (Z.lor (fst s) (mask_of (discards_start fg) i l),
            Z.lor (snd s) (mask_of (discards_end fg) i l)).
Proof.
  induction l as [|a l IH]; intros i s Hb; simpl in *.
  - unfold NONE. rewrite !Z.lor_0_r. destruct s; reflexivity.
  - apply andb_true_iff in Hb as [Ha Hl].
    rewrite (update_body_spec fg i a s Ha). simpl.
    rewrite (IH (S i) _ Hl). simpl. rewrite !Z.lor_assoc. reflexivity.
Qed.

(** What [update] returns for an entry with a non-empty mask. *)
Lemma update_spec fg pass rt :
  any (attachments rt) = true ->
  handles_ok fg (descriptor rt) = true ->
  update fg pass rt
  = Done (setResource rt
            (mkResource (viewport_width (rt_resource rt)) (viewport_height (rt_resource rt))
               (flags_clear (rt_resource rt))
               (Z.lor (mask_of (discards_start fg) 0
                         (textures (desc_attachments (descriptor rt))))
                      (flags_clear (rt_resource rt)))
               (mask_of (discards_end fg) 0
                  (textures (desc_attachments (descriptor rt))))
               (target (rt_resource rt))),
          if nonnull (target (rt_resource rt)) then []
          else [DoesntDeclare (pass_name pass) (name rt)]).
Proof.
  intros Hany Hok. unfold update. rewrite Hany.
  rewrite (update_loop_spec fg _ 0%nat (NONE, NONE) Hok). simpl.
  unfold ASSERT_POSTCONDITION_NON_FATAL. reflexivity.
Qed.

(** The bit of slot [k] in the mask of the selected slots. *)
Lemma mask_of_bit sel (d : Attachments) k a :
  textures d !! k = Some a ->
  (Z.land (mask_of sel 0 (textures d)) (flags k) <> 0 <-> sel a = true).
Proof.
  unfold textures. intros Hk.
  destruct k as [|[|[|k]]]; simpl in Hk; try discriminate; injection Hk as <-;
    simpl; destruct (sel (color d)), (sel (depth d)), (sel (stencil d));
    simpl; split; intros H; try reflexivity; try discriminate;
    exfalso; apply H; reflexivity.
Qed.

Lemma land_lor_absorb m c : Z.land (Z.lor m c) c = c.
Proof.
  apply Z.bits_inj'. intros n _. rewrite Z.land_spec, Z.lor_spec.
  destruct (Z.testbit m n), (Z.testbit c n); reflexivity.
Qed.

Lemma mask_consistent_any rt :
  mask_consistent rt -> any (attachments rt) = has_valid_slot (descriptor rt).
Proof. intros ->. apply activeSlots_any. Qed.

(** C4.  For an entry with at least one valid slot, [update] returns with
    the clear mask untouched, [discardEnd] the mask of the valid slots whose
    resource node declares "discard at end", and [discardStart] the mask of
    the valid slots whose resource node declares "discard at start" OR-ed
    with the clear mask, whatever the two fields held before; so every bit
    of the clear mask is in [discardStart]. *)
Theorem update_discard_flags fg pass rt :
  mask_consistent rt ->
  has_valid_slot (descriptor rt) = true ->
  handles_ok fg (descriptor rt) = true ->
  exists rt' diags,
    update fg pass rt = Done (rt', diags)
    /\ flags_clear (rt_resource rt') = flags_clear (rt_resource rt)
    /\ (forall k a,
          textures (desc_attachments (descriptor rt)) !! k = Some a ->
          (Z.land (flags_discardEnd (rt_resource rt')) (flags k) <> 0
           <-> discards_end fg a = true)
          /\ (Z.land (flags_discardStart (rt_resource rt')) (flags k) <> 0
              <-> discards_start fg a = true
                  \/ Z.land (flags_clear (rt_resource rt)) (flags k) <> 0))
    /\ flags_discardEnd (rt_resource rt')
         = mask_of (discards_end fg) 0 (textures (desc_attachments (descriptor rt)))
    /\ flags_discardStart (rt_resource rt')
         = Z.lor (mask_of (discards_start fg) 0
                    (textures (desc_attachments (descriptor rt))))
                 (flags_clear (rt_resource rt))
    /\ Z.land (flags_discardStart (rt_resource rt')) (flags_clear (rt_resource rt'))
         = flags_clear (rt_resource rt').
Proof.
  intros Hm Hv Hok. rewrite <- (mask_consistent_any rt Hm) in Hv.
  eexists _, _. split; [apply (update_spec fg pass rt Hv Hok)|].
  cbn [setResource rt_resource flags_clear flags_discardStart flags_discardEnd].
  split; [reflexivity|]. split; [|split; [reflexivity|split; [reflexivity|]]].
  - intros k a Hk. split; [apply mask_of_bit; exact Hk|].
    rewrite Z.land_lor_distr_l, Z.lor_eq_0_iff.
    pose proof (mask_of_bit (discards_start fg) _ k a Hk) as Hbit.
    destruct (Z.eq_dec
                (Z.land (mask_of (discards_start fg) 0
                           (textures (desc_attachments (descriptor rt)))) (flags k)) 0)
      as [E|E]; tauto.
  - apply land_lor_absorb.
Qed.

Lemma update_discard_flags_witness :
  mask_consistent rt_full_resolved
  /\ has_valid_slot (descriptor rt_full_resolved) = true
  /\ handles_ok fg0 (descriptor rt_full_resolved) = true
  /\ exists rt' diags,
       update fg0 the_pass rt_full_resolved = Done (rt', diags)
       /\ flags_clear (rt_resource rt') = flags_clear (rt_resource rt_full_resolved)
       /\ (forall k a,
             textures (desc_attachments (descriptor rt_full_resolved)) !! k = Some a ->
             (Z.land (flags_discardEnd (rt_resource rt')) (flags k) <> 0
              <-> discards_end fg0 a = true)
             /\ (Z.land (flags_discardStart (rt_resource rt')) (flags k) <> 0
                 <-> discards_start fg0 a = true
                     \/ Z.land (flags_clear (rt_resource rt_full_resolved)) (flags k) <> 0))
       /\ flags_discardEnd (rt_resource rt')
            = mask_of (discards_end fg0) 0
                (textures (desc_attachments (descriptor rt_full_resolved)))
       /\ flags_discardStart (rt_resource rt')
            = Z.lor (mask_of (discards_start fg0) 0
                       (textures (desc_attachments (descriptor rt_full_resolved))))
                    (flags_clear (rt_resource rt_full_resolved))
       /\ Z.land (flags_discardStart (rt_resource rt')) (flags_clear (rt_resource rt'))
            = flags_clear (rt_resource rt').
Proof.
  split; [reflexivity|]. split; [reflexivity|]. split; [reflexivity|].
  apply (update_discard_flags fg0 the_pass rt_full_resolved); reflexivity.
Defined.

Example resolve_color_resolved :
  exists fg', resolve fg0 rt_color = Done (fg', rt_color_resolved).
Proof. eexists. reflexivity. Qed.

Example resolve_full_resolved :
  exists fg', resolve fg0 rt_full = Done (fg', rt_full_resolved).
Proof. eexists. reflexivity. Qed.

(** Color and stencil name a texture that is discarded at start, depth is
    cleared: all three bits end in [discardStart], none in [discardEnd]. *)
Example update_full :
  exists rt' diags, update fg0 the_pass rt_full_resolved = Done (rt', diags)
    /\ flags_discardStart (rt_resource rt') = 7
    /\ flags_discardEnd (rt_resource rt') = 0.
Proof. eexists _, _. split; [reflexivity|]. split; reflexivity. Qed.

(** *** The diagnostic of [update] *)

(** C5, as amended.  For an entry with at least one valid slot, [update]
    returns with the discard flags computed from the resource nodes, and it
    reports the diagnostic, which names the pass and the render target,
    exactly when the entry's real target is null; the pass is not compared
    with anything. *)
Theorem update_diagnostic fg pass rt :
  mask_consistent rt ->
  has_valid_slot (descriptor rt) = true ->
  handles_ok fg (descriptor rt) = true ->
  exists rt',
    update fg pass rt
    = Done (rt', if nonnull (target (rt_resource rt)) then []
                 else [DoesntDeclare (pass_name pass) (name rt)])
    /\ (raises_diagnostic (update fg pass rt) = true
        <-> target (rt_resource rt) = None)
    /\ flags_discardEnd (rt_resource rt')
         = mask_of (discards_end fg) 0 (textures (desc_attachments (descriptor rt)))
    /\ flags_discardStart (rt_resource rt')
         = Z.lor (mask_of (discards_start fg) 0
                    (textures (desc_attachments (descriptor rt))))
                 (flags_clear (rt_resource rt)).
Proof.
  intros Hm Hv Hok. rewrite <- (mask_consistent_any rt Hm) in Hv.
  rewrite (update_spec fg pass rt Hv Hok). eexists. split; [reflexivity|].
  split; [|split; reflexivity].
  simpl. destruct (target (rt_resource rt)); simpl; split; congruence.
Qed.

Lemma update_diagnostic_witness :
  mask_consistent rt_color_resolved
  /\ has_valid_slot (descriptor rt_color_resolved) = true
  /\ handles_ok fg0 (descriptor rt_color_resolved) = true
  /\ exists rt',
       update fg0 the_pass rt_color_resolved
       = Done (rt', if nonnull (target (rt_resource rt_color_resolved)) then []
                    else [DoesntDeclare (pass_name the_pass) (name rt_color_resolved)])
       /\ (raises_diagnostic (update fg0 the_pass rt_color_resolved) = true
           <-> target (rt_resource rt_color_resolved) = None)
       /\ flags_discardEnd (rt_resource rt')
            = mask_of (discards_end fg0) 0
                (textures (desc_attachments (descriptor rt_color_resolved)))
       /\ flags_discardStart (rt_resource rt')
            = Z.lor (mask_of (discards_start fg0) 0
                       (textures (desc_attachments (descriptor rt_color_resolved))))
                    (flags_clear (rt_resource rt_color_resolved)).
Proof.
  split; [reflexivity|]. split; [reflexivity|]. split; [reflexivity|].
  apply (update_diagnostic fg0 the_pass rt_color_resolved); reflexivity.
Defined.

(** C5, as stated, fails.  A freshly resolved entry has no real target yet;
    [update] on it reports the diagnostic for every pass, so for the pass
    that declared the render target too: no pass can be the one for which
    the diagnostic is raised exactly when another pass executes. *)
Lemma update_diagnostic_declaring_pass :
  ~ (exists declaring : PassNode,
       forall pass : PassNode,
         raises_diagnostic (update fg0 pass rt_color_resolved) = true
         <-> pass <> declaring).
Proof.
  intros [declaring H]. apply (proj1 (H declaring)); reflexivity.
Qed.

(** *** preExecuteDevirtualize *)

Lemma slots_mask_mask_of l : forall i, slots_mask i l = mask_of isValid i l.
Proof. induction l as [|a l IH]; intros i; simpl; [|rewrite IH]; reflexivity. Qed.

Lemma mask_consistent_bit rt k a :
  mask_consistent rt ->
  textures (desc_attachments (descriptor rt)) !! k = Some a ->
  eqb (negb (Z.land (attachments rt) (flags k) =? 0)) (isValid a) = true.
Proof.
  intros Hm Hk. unfold mask_consistent, activeSlots in Hm.
  rewrite slots_mask_mask_of in Hm. rewrite Hm.
  pose proof (mask_of_bit isValid _ k a Hk) as Hbit.
  destruct (Z.eqb_spec (Z.land (mask_of isValid 0
              (textures (desc_attachments (descriptor rt)))) (flags k)) 0) as [E|E];
    destruct (isValid a); simpl; try reflexivity; exfalso.
  - rewrite E in Hbit. destruct Hbit as [_ Hbit]. apply Hbit; reflexivity.
  - destruct Hbit as [Hbit _]. specialize (Hbit E). discriminate.
Qed.

Lemma devirtualize_body_spec NDEBUG fg rt i a infos :
  bound fg a = true ->
  (NDEBUG = true
   \/ eqb (negb (Z.land (attachments rt) (flags i) =? 0)) (isValid a) = true) ->
  devirtualize_body NDEBUG fg rt i a infos
  = if NDEBUG || attachment_ready fg (samples (descriptor rt)) a
    then Done (if isValid a then <[i := binding fg a]> infos else infos)
    else Abort AssertionFailed.
Proof.
  intros Hb Hc. unfold devirtualize_body, attachment_ready, binding, entryOf, assert.
  unfold bound in Hb.
  assert (Hc' : NDEBUG || eqb (negb (Z.land (attachments rt) (flags i) =? 0)) (isValid a)
                = true) by (destruct Hc as [-> | ->]; [reflexivity | apply orb_true_r]).
  rewrite Hc'. simpl. destruct (isValid a); simpl in *.
  - destruct (getResourceEntryUnchecked fg (getHandle a)) as [[p e]|f]; [|discriminate].
    simpl. destruct NDEBUG; simpl; [reflexivity|].
    destruct (nonnull (tex_texture e)); simpl; [|reflexivity].
    destruct (getLevel a <? tex_levels (tex_descriptor e)); simpl; [|reflexivity].
    destruct ((tex_samples (tex_descriptor e) <=? 1)
              || (tex_samples (tex_descriptor e) =? samples (descriptor rt)));
      reflexivity.
  - rewrite orb_true_r. reflexivity.
Qed.

Lemma devirtualize_loop_spec NDEBUG fg rt l :
  forall i infos,
    forallb (bound fg) l = true ->
    (NDEBUG = true
     \/ forall k a, l !! k = Some a ->
          eqb (negb (Z.land (attachments rt) (flags (i + k)) =? 0)) (isValid a) = true) ->
    devirtualize_loop NDEBUG fg rt i l infos
    = if NDEBUG || forallb (attachment_ready fg (samples (descriptor rt))) l
      then Done (bindings fg i l infos)
      else Abort AssertionFailed.
Proof.
  induction l as [|a l IH]; intros i infos Hb Hc; simpl in *.
  - rewrite orb_true_r. reflexivity.
  - apply andb_true_iff in Hb as [Ha Hl].
    rewrite (devirtualize_body_spec NDEBUG fg rt i a infos Ha).
    2:{ destruct Hc as [Hc|Hc]; [left; exact Hc | right].
        specialize (Hc 0%nat a eq_refl). rewrite Nat.add_0_r in Hc. exact Hc. }
    destruct NDEBUG; simpl.
    + rewrite (IH (S i) _ Hl (or_introl eq_refl)). reflexivity.
    + destruct (attachment_ready fg (samples (descriptor rt)) a); simpl; [|reflexivity].
      apply (IH (S i) _ Hl). right. intros k b Hk.
      destruct Hc as [Hc|Hc]; [discriminate|].
      specialize (Hc (S k) b Hk). rewrite Nat.add_succ_r in Hc. exact Hc.
Qed.

Lemma bindings_textures fg (d : Attachments) :
  bindings fg 0 (textures d) (replicate COUNT emptyInfo)
  = [binding fg (color d); binding fg (depth d); binding fg (stencil d)].
Proof.
  unfold textures, COUNT. simpl.
  assert (H : forall a, isValid a = false -> binding fg a = emptyInfo).
  { intros a Ha. unfold binding, entryOf. rewrite Ha. reflexivity. }
  destruct (isValid (color d)) eqn:Ec, (isValid (depth d)) eqn:Ed,
           (isValid (stencil d)) eqn:Es; simpl;
    rewrite ?(H _ Ec), ?(H _ Ed), ?(H _ Es); reflexivity.
Qed.

(** What [preExecuteDevirtualize] does to an entry that is not imported. *)
Lemma devirtualize_spec NDEBUG fg rt :
  imported rt = false ->
  handles_ok fg (descriptor rt) = true ->
  (NDEBUG = true \/ mask_consistent rt) ->
  preExecuteDevirtualize NDEBUG fg rt
  = if NDEBUG
       || (any (attachments rt)
           && forallb (attachment_ready fg (samples (descriptor rt)))
                (textures (desc_attachments (descriptor rt))))
    then
      let r := createRenderTarget (mResourceAllocator fg) (name rt)
                 (attachments rt) (width rt) (height rt) (samples (descriptor rt))
                 (binding fg (color (desc_attachments (descriptor rt))))
                 (binding fg (depth (desc_attachments (descriptor rt))))
                 emptyInfo in
      Done (setAllocator fg (fst r),
            setResource rt
              (mkResource (viewport_width (rt_resource rt)) (viewport_height (rt_resource rt))
                 (flags_clear (rt_resource rt)) (flags_discardStart (rt_resource rt))
                 (flags_discardEnd (rt_resource rt)) (snd r)))
    else Abort AssertionFailed.
Proof.
  intros Hi Hok Hc. unfold preExecuteDevirtualize. rewrite Hi. cbn [negb].
  unfold assert at 1.
  destruct (NDEBUG || any (attachments rt)) eqn:E1.
  2:{ apply orb_false_iff in E1 as [-> ->]. reflexivity. }
  cbn [bind].
  rewrite (devirtualize_loop_spec NDEBUG fg rt _ 0%nat _ Hok).
  2:{ destruct Hc as [Hc|Hc]; [left; exact Hc | right].
      intros k a Hk. apply mask_consistent_bit; assumption. }
  destruct NDEBUG; cbn [orb] in *.
  - cbn [bind]. rewrite bindings_textures. reflexivity.
  - rewrite E1. cbn [andb].
    destruct (forallb (attachment_ready fg (samples (descriptor rt)))
                (textures (desc_attachments (descriptor rt)))); [|reflexivity].
    cbn [bind]. rewrite bindings_textures. reflexivity.
Qed.

Lemma attachment_ready_iff fg S a :
  attachment_ready fg S a = true <->
  (forall p e, entryOf fg a = Some (p, e) ->
     tex_texture e <> None
     /\ getLevel a < tex_levels (tex_descriptor e)
     /\ (1 < tex_samples (tex_descriptor e) -> tex_samples (tex_descriptor e) = S)).
Proof.
  unfold attachment_ready. destruct (entryOf fg a) as [[p e]|]; simpl.
  - rewrite !andb_true_iff, orb_true_iff, Z.ltb_lt, Z.leb_le, Z.eqb_eq. split.
    + intros [[Ht Hl] Hs] p' e' [= <- <-]. split; [|split; [exact Hl | lia]].
      destruct (tex_texture e); [discriminate | discriminate Ht].
    + intros H. destruct (H p e eq_refl) as (Ht & Hl & Hs).
      split; [split; [|exact Hl]|lia].
      destruct (tex_texture e); [reflexivity | congruence].
  - split; [discriminate | reflexivity].
Qed.

Lemma devirtualize_ready_iff fg rt :
  devirtualize_ready fg rt = true <->
  any (attachments rt) = true
  /\ forall a p e,
       In a (textures (desc_attachments (descriptor rt))) ->
       entryOf fg a = Some (p, e) ->
       tex_texture e <> None
       /\ getLevel a < tex_levels (tex_descriptor e)
       /\ (1 < tex_samples (tex_descriptor e) ->
           tex_samples (tex_descriptor e) = samples (descriptor rt)).
Proof.
  unfold devirtualize_ready. rewrite andb_true_iff, forallb_forall.
  split; intros [Ha H]; (split; [exact Ha|]).
  - intros a p e Hin. apply attachment_ready_iff, H, Hin.
  - intros a Hin. apply attachment_ready_iff. intros p e. apply H, Hin.
Qed.

Lemma eqb_bit x b :
  eqb (negb (x =? 0)) b = true <-> (x <> 0 <-> b = true).
Proof.
  destruct (Z.eqb_spec x 0) as [E|E], b; simpl; intuition (try congruence).
Qed.

Lemma mask_agrees_iff mask l :
  forall i,
    mask_agrees mask i l = true <->
    (forall k a, l !! k = Some a ->
       (Z.land mask (flags (i + k)) <> 0 <-> isValid a = true)).
Proof.
  induction l as [|a l IH]; intros i; simpl.
  - split; [intros _ k a Hk; discriminate | reflexivity].
  - rewrite andb_true_iff, eqb_bit, (IH (S i)). split.
    + intros [Ha Hl] k b Hk. destruct k as [|k]; simpl in Hk.
      * injection Hk as <-. rewrite Nat.add_0_r. exact Ha.
      * rewrite Nat.add_succ_r. apply (Hl k b Hk).
    + intros H. split.
      * specialize (H 0%nat a eq_refl). rewrite Nat.add_0_r in H. exact H.
      * intros k b Hk. specialize (H (S k) b Hk). rewrite Nat.add_succ_r in H. exact H.
Qed.

(** The loop of [preExecuteDevirtualize] in a debug build, whatever the
    mask. *)
Lemma devirtualize_loop_debug fg rt l :
  forall i infos,
    forallb (bound fg) l = true ->
    devirtualize_loop false fg rt i l infos
    = if mask_agrees (attachments rt) i l
         && forallb (attachment_ready fg (samples (descriptor rt))) l
      then Done (bindings fg i l infos)
      else Abort AssertionFailed.
Proof.
  induction l as [|a l IH]; intros i infos Hb; simpl in *; [reflexivity|].
  apply andb_true_iff in Hb as [Ha Hl].
  destruct (eqb (negb (Z.land (attachments rt) (flags i) =? 0)) (isValid a)) eqn:C.
  - rewrite (devirtualize_body_spec false fg rt i a infos Ha (or_intror C)).
    cbn [orb andb].
    destruct (attachment_ready fg (samples (descriptor rt)) a); cbn [bind andb].
    + apply (IH (S i) _ Hl).
    + rewrite andb_false_r. reflexivity.
  - unfold devirtualize_body, assert. rewrite C. reflexivity.
Qed.

(** What [preExecuteDevirtualize] does in a debug build to an entry that is
    not imported. *)
Lemma devirtualize_debug_spec fg rt :
  imported rt = false ->
  handles_ok fg (descriptor rt) = true ->
  preExecuteDevirtualize false fg rt
  = if any (attachments rt)
       && (mask_agrees (attachments rt) 0 (textures (desc_attachments (descriptor rt)))
           && forallb (attachment_ready fg (samples (descriptor rt)))
                (textures (desc_attachments (descriptor rt))))
    then
      let r := createRenderTarget (mResourceAllocator fg) (name rt)
                 (attachments rt) (width rt) (height rt) (samples (descriptor rt))
                 (binding fg (color (desc_attachments (descriptor rt))))
                 (binding fg (depth (desc_attachments (descriptor rt))))
                 emptyInfo in
      Done (setAllocator fg (fst r),
            setResource rt
              (mkResource (viewport_width (rt_resource rt)) (viewport_height (rt_resource rt))
                 (flags_clear (rt_resource rt)) (flags_discardStart (rt_resource rt))
                 (flags_discardEnd (rt_resource rt)) (snd r)))
    else Abort AssertionFailed.
Proof.
  intros Hi Hok. unfold preExecuteDevirtualize. rewrite Hi. cbn [negb].
  unfold assert at 1. cbn [orb].
  destruct (any (attachments rt)); [|reflexivity]. cbn [bind andb].
  rewrite (devirtualize_loop_debug fg rt _ 0%nat _ Hok).
  destruct (mask_agrees (attachments rt) 0 (textures (desc_attachments (descriptor rt)))
            && forallb (attachment_ready fg (samples (descriptor rt)))
                 (textures (desc_attachments (descriptor rt)))); [|reflexivity].
  cbn [bind]. rewrite bindings_textures. reflexivity.
Qed.

(** C8, as amended.  In a debug build, for an entry that is not imported,
    [preExecuteDevirtualize] asserts that the mask is non-empty, that the
    mask has the bit of each slot exactly when the slot is valid, and that
    every valid attachment refers to a texture entry with a non-null real
    texture, a level count above the requested mip level and, when it has
    more than one sample, the sample count of the render target: it returns
    when all of this holds, and stops on a failed assertion otherwise. *)
Theorem devirtualize_assertions fg rt :
  imported rt = false ->
  handles_ok fg (descriptor rt) = true ->
  let pre :=
    any (attachments rt) = true
    /\ (forall k a,
          textures (desc_attachments (descriptor rt)) !! k = Some a ->
          (Z.land (attachments rt) (flags k) <> 0 <-> isValid a = true))
    /\ (forall a p e,
          In a (textures (desc_attachments (descriptor rt))) ->
          entryOf fg a = Some (p, e) ->
          tex_texture e <> None
          /\ getLevel a < tex_levels (tex_descriptor e)
          /\ (1 < tex_samples (tex_descriptor e) ->
              tex_samples (tex_descriptor e) = samples (descriptor rt))) in
  (pre -> exists s, preExecuteDevirtualize false fg rt = Done s)
  /\ (~ pre -> preExecuteDevirtualize false fg rt = Abort AssertionFailed).
Proof.
  intros Hi Hok pre.
  rewrite (devirtualize_debug_spec fg rt Hi Hok).
  pose proof (devirtualize_ready_iff fg rt) as Hr. unfold devirtualize_ready in Hr.
  pose proof (mask_agrees_iff (attachments rt)
                (textures (desc_attachments (descriptor rt))) 0%nat) as Hm.
  cbn [Nat.add] in Hm.
  assert (Hpre : any (attachments rt)
                 && (mask_agrees (attachments rt) 0
                       (textures (desc_attachments (descriptor rt)))
                     && forallb (attachment_ready fg (samples (descriptor rt)))
                          (textures (desc_attachments (descriptor rt)))) = true
                 <-> pre).
  { unfold pre. rewrite !andb_true_iff, Hm. rewrite andb_true_iff in Hr.
    split.
    - intros (Ha & Hag & Hf). split; [exact Ha|]. split; [exact Hag|].
      apply Hr. auto.
    - intros (Ha & Hag & Hp). split; [exact Ha|]. split; [exact Hag|].
      apply Hr. auto. }
  destruct (any (attachments rt)
            && (mask_agrees (attachments rt) 0
                  (textures (desc_attachments (descriptor rt)))
                && forallb (attachment_ready fg (samples (descriptor rt)))
                     (textures (desc_attachments (descriptor rt))))); split; intros H.
  - eexists. reflexivity.
  - exfalso. apply H, Hpre. reflexivity.
  - apply Hpre in H. discriminate.
  - reflexivity.
Qed.

Lemma devirtualize_assertions_witness :
  imported rt_color_resolved = false
  /\ handles_ok fg0 (descriptor rt_color_resolved) = true
  /\ let pre :=
       any (attachments rt_color_resolved) = true
       /\ (forall k a,
             textures (desc_attachments (descriptor rt_color_resolved)) !! k = Some a ->
             (Z.land (attachments rt_color_resolved) (flags k) <> 0 <-> isValid a = true))
       /\ (forall a p e,
             In a (textures (desc_attachments (descriptor rt_color_resolved))) ->
             entryOf fg0 a = Some (p, e) ->
             tex_texture e <> None
             /\ getLevel a < tex_levels (tex_descriptor e)
             /\ (1 < tex_samples (tex_descriptor e) ->
                 tex_samples (tex_descriptor e) = samples (descriptor rt_color_resolved))) in
     (pre -> exists s, preExecuteDevirtualize false fg0 rt_color_resolved = Done s)
     /\ (~ pre -> preExecuteDevirtualize false fg0 rt_color_resolved = Abort AssertionFailed).
Proof.
  split; [reflexivity|]. split; [reflexivity|].
  apply (devirtualize_assertions fg0 rt_color_resolved); reflexivity.
Defined.

(** C8, as stated, fails.  The mask of this entry names the color and the
    depth slot, only the color slot is valid, and what the claim lists
    holds: the mask is non-empty, and the one valid attachment has a real
    texture, its level within range and a single sample.  The debug build
    stops all the same, on the assertion that compares the mask with the
    validity of the depth slot. *)
Lemma devirtualize_stale_mask_asserts :
  imported rt_stale = false
  /\ any (attachments rt_stale) = true
  /\ (forall a p e,
        In a (textures (desc_attachments (descriptor rt_stale))) ->
        entryOf fg0 a = Some (p, e) ->
        tex_texture e <> None
        /\ getLevel a < tex_levels (tex_descriptor e)
        /\ (1 < tex_samples (tex_descriptor e) ->
            tex_samples (tex_descriptor e) = samples (descriptor rt_stale)))
  /\ preExecuteDevirtualize false fg0 rt_stale = Abort AssertionFailed.
Proof.
  split; [reflexivity|].
  assert (H : devirtualize_ready fg0 rt_stale = true) by reflexivity.
  apply devirtualize_ready_iff in H as [Ha Hp].
  split; [exact Ha|]. split; [exact Hp | reflexivity].
Qed.

(** The preconditions hold for the resolved color-only entry, which is
    devirtualized; they fail for a mip level beyond the level count, for a
    texture without a real handle and for a multisampled texture whose
    sample count differs from the render target's. *)
Example devirtualize_color_ready : devirtualize_ready fg0 rt_color_resolved = true.
Proof. reflexivity. Qed.

Example devirtualize_level_out_of_range :
  preExecuteDevirtualize false fg0
    (mkEntry "level" false (mkDescriptor (mkAttachments (att 0 1) invalid invalid) 1 NONE)
             (fresh_resource NONE) COLOR 128 128)
  = Abort AssertionFailed.
Proof. reflexivity. Qed.

Example devirtualize_samples_mismatch :
  preExecuteDevirtualize false
    (mkFrameGraph
       [mkTextureEntry (mkTextureDescriptor 64 64 1 4 0) (Some 1%nat) false false]
       [mkResourceNode 0] (mkAllocator [] 0))
    (mkEntry "samples" false (mkDescriptor (mkAttachments (att 0 0) invalid invalid) 2 NONE)
             (fresh_resource NONE) COLOR 64 64)
  = Abort AssertionFailed.
Proof. reflexivity. Qed.

Example devirtualize_null_texture :
  preExecuteDevirtualize false
    (mkFrameGraph
       [mkTextureEntry (mkTextureDescriptor 64 64 1 1 0) None false false]
       [mkResourceNode 0] (mkAllocator [] 0))
    (mkEntry "null" false (mkDescriptor (mkAttachments (att 0 0) invalid invalid) 1 NONE)
             (fresh_resource NONE) COLOR 64 64)
  = Abort AssertionFailed.
Proof. reflexivity. Qed.

(** C2, as amended.  For an entry that is not imported, whenever the
    assertions let it through, [preExecuteDevirtualize] returns after one
    call to the allocator's [createRenderTarget], with the entry's name, its
    mask, its resolved width and height, its sample count, the binding of
    the color slot and the binding of the depth slot (real texture and mip
    level of a valid slot, the empty binding otherwise); the stencil
    argument is always the empty binding.  The real target is then
    non-null. *)
Theorem devirtualize_bindings NDEBUG fg rt :
  imported rt = false ->
  mask_consistent rt ->
  handles_ok fg (descriptor rt) = true ->
  NDEBUG || devirtualize_ready fg rt = true ->
  exists fg' rt',
    preExecuteDevirtualize NDEBUG fg rt = Done (fg', rt')
    /\ calls (mResourceAllocator fg')
       = calls (mResourceAllocator fg)
         ++ [CreateRenderTarget (name rt) (attachments rt) (width rt) (height rt)
               (samples (descriptor rt))
               (binding fg (color (desc_attachments (descriptor rt))))
               (binding fg (depth (desc_attachments (descriptor rt))))
               emptyInfo]
    /\ target (rt_resource rt') <> None.
Proof.
  intros Hi Hm Hok Hr.
  rewrite (devirtualize_spec NDEBUG fg rt Hi Hok (or_intror Hm)).
  unfold devirtualize_ready in Hr. rewrite Hr.
  eexists _, _. split; [reflexivity|]. simpl. split; [reflexivity | discriminate].
Qed.

Lemma devirtualize_bindings_witness :
  imported rt_full_resolved = false
  /\ mask_consistent rt_full_resolved
  /\ handles_ok fg0 (descriptor rt_full_resolved) = true
  /\ false || devirtualize_ready fg0 rt_full_resolved = true
  /\ exists fg' rt',
       preExecuteDevirtualize false fg0 rt_full_resolved = Done (fg', rt')
       /\ calls (mResourceAllocator fg')
          = calls (mResourceAllocator fg0)
            ++ [CreateRenderTarget (name rt_full_resolved) (attachments rt_full_resolved)
                  (width rt_full_resolved) (height rt_full_resolved)
                  (samples (descriptor rt_full_resolved))
                  (binding fg0 (color (desc_attachments (descriptor rt_full_resolved))))
                  (binding fg0 (depth (desc_attachments (descriptor rt_full_resolved))))
                  emptyInfo]
       /\ target (rt_resource rt') <> None.
Proof.
  split; [reflexivity|]. split; [reflexivity|]. split; [reflexivity|].
  split; [reflexivity|].
  apply (devirtualize_bindings false fg0 rt_full_resolved); reflexivity.
Defined.

(** C2, as stated, fails.  The stencil slot of this entry is valid and its
    binding is the real texture 7 at level 0, yet the call made to the
    allocator does not carry it. *)
Lemma devirtualize_stencil_binding_not_passed :
  isValid (stencil (desc_attachments (descriptor rt_full_resolved))) = true
  /\ binding fg0 (stencil (desc_attachments (descriptor rt_full_resolved)))
     = mkTargetBufferInfo (Some 7%nat) 0
  /\ ~ (forall fg' rt',
          preExecuteDevirtualize false fg0 rt_full_resolved = Done (fg', rt') ->
          calls (mResourceAllocator fg')
          = calls (mResourceAllocator fg0)
            ++ [CreateRenderTarget (name rt_full_resolved) (attachments rt_full_resolved)
                  (width rt_full_resolved) (height rt_full_resolved)
                  (samples (descriptor rt_full_resolved))
                  (binding fg0 (color (desc_attachments (descriptor rt_full_resolved))))
                  (binding fg0 (depth (desc_attachments (descriptor rt_full_resolved))))
                  (binding fg0 (stencil (desc_attachments (descriptor rt_full_resolved))))]).
Proof.
  split; [reflexivity|]. split; [reflexivity|]. intros H.
  specialize (H _ _ eq_refl). discriminate H.
Qed.

(** *** postExecuteDestroy *)

Lemma postExecuteDestroy_again fg rt :
  let s := postExecuteDestroy fg rt in postExecuteDestroy (fst s) (snd s) = s.
Proof.
  unfold postExecuteDestroy. destruct (imported rt) eqn:Hi; simpl.
  - rewrite Hi. reflexivity.
  - destruct (target (rt_resource rt)) eqn:Ht; simpl; rewrite Hi; simpl.
    + reflexivity.
    + rewrite Ht. reflexivity.
Qed.

Lemma destroy_times_fixed n : forall s,
  postExecuteDestroy (fst s) (snd s) = s -> destroy_times n s = s.
Proof.
  induction n as [|n IH]; intros s Hs; simpl; [reflexivity|].
  rewrite Hs. apply IH, Hs.
Qed.

Lemma postExecuteDestroy_cases fg rt :
  (exists h, imported rt = false /\ target (rt_resource rt) = Some h
     /\ postExecuteDestroy fg rt
        = (setAllocator fg (destroyRenderTarget (mResourceAllocator fg) (Some h)),
           setResource rt
             (mkResource (viewport_width (rt_resource rt)) (viewport_height (rt_resource rt))
                (flags_clear (rt_resource rt)) (flags_discardStart (rt_resource rt))
                (flags_discardEnd (rt_resource rt)) None)))
  \/ ((imported rt = true \/ target (rt_resource rt) = None)
      /\ postExecuteDestroy fg rt = (fg, rt)).
Proof.
  unfold postExecuteDestroy.
  destruct (imported rt); simpl; [right; auto|].
  destruct (target (rt_resource rt)) as [h|]; simpl; [left; eauto | right; auto].
Qed.

(** C9.  [postExecuteDestroy] calls the allocator's [destroyRenderTarget],
    with the entry's non-null real target, and makes the real target null,
    when the entry is not imported and its real target is non-null; it
    changes nothing otherwise.  So it calls the allocator exactly in that
    case, never with a null handle, and calling it again, any number of
    times, changes nothing more. *)
Theorem destroy_once fg rt :
  let s := postExecuteDestroy fg rt in
  (imported rt = false ->
   forall h, target (rt_resource rt) = Some h ->
     calls (mResourceAllocator (fst s))
     = calls (mResourceAllocator fg) ++ [DestroyRenderTarget (Some h)]
     /\ target (rt_resource (snd s)) = None
     /\ mResourceEntries (fst s) = mResourceEntries fg
     /\ mResourceNodes (fst s) = mResourceNodes fg
     /\ imported (snd s) = imported rt
     /\ descriptor (snd s) = descriptor rt
     /\ attachments (snd s) = attachments rt
     /\ flags_clear (rt_resource (snd s)) = flags_clear (rt_resource rt))
  /\ (imported rt = true \/ target (rt_resource rt) = None -> s = (fg, rt))
  /\ (calls (mResourceAllocator (fst s)) <> calls (mResourceAllocator fg)
      <-> imported rt = false /\ target (rt_resource rt) <> None)
  /\ (forall c, In c (calls (mResourceAllocator (fst s))) ->
        In c (calls (mResourceAllocator fg))
        \/ exists h, c = DestroyRenderTarget (Some h))
  /\ (forall n, destroy_times (S n) (fg, rt) = s).
Proof.
  cbv zeta.
  assert (Hn : forall n, destroy_times (S n) (fg, rt) = postExecuteDestroy fg rt).
  { intros n. simpl. apply destroy_times_fixed, postExecuteDestroy_again. }
  revert Hn.
  destruct (postExecuteDestroy_cases fg rt) as [(h & Hi & Ht & E)|(Hc & E)];
    rewrite E; intros Hn.
  - cbn [fst snd]. split; [|split; [|split; [|split]]].
    + intros _ h' Hh. rewrite Ht in Hh. injection Hh as <-. simpl. auto 10.
    + intros [H|H]; congruence.
    + simpl. split; [intros _; split; congruence|intros _ H].
      apply (f_equal (@length _)) in H. rewrite length_app in H. simpl in H. lia.
    + simpl. intros c Hc. apply in_app_or in Hc as [Hc|[<-|[]]]; eauto.
    + exact Hn.
  - cbn [fst snd]. split; [|split; [|split; [|split]]].
    + intros Hi h Hh. destruct Hc; congruence.
    + reflexivity.
    + split; [congruence|]. intros [Hi Ht]. destruct Hc; congruence.
    + auto.
    + exact Hn.
Qed.

Example destroy_devirtualized :
  exists fg1 rt1,
    preExecuteDevirtualize false fg0 rt_color_resolved = Done (fg1, rt1)
    /\ target (rt_resource rt1) = Some 100%nat
    /\ calls (mResourceAllocator (fst (destroy_times 3 (fg1, rt1))))
       = calls (mResourceAllocator fg1) ++ [DestroyRenderTarget (Some 100%nat)].
Proof. eexists _, _. split; [reflexivity|]. split; reflexivity. Qed.

(** ** Invariants of the per-pass protocol *)

Lemma trace_invariant (P : State -> Prop) NDEBUG :
  (forall op s s', P s -> step NDEBUG op s = Done s' -> P s') ->
  forall ops s, P s -> Forall P (trace NDEBUG ops s).
Proof.
  intros Hstep ops. induction ops as [|op ops IH]; intros s Hs; simpl.
  - constructor.
  - destruct (step NDEBUG op s) as [s'|f] eqn:E; [|constructor].
    assert (Hs' : P s') by (eapply Hstep; eassumption).
    constructor; [exact Hs' | apply IH, Hs'].
Qed.

Lemma update_keeps fg pass rt rt' diags :
  update fg pass rt = Done (rt', diags) ->
  imported rt' = imported rt
  /\ target (rt_resource rt') = target (rt_resource rt)
  /\ flags_clear (rt_resource rt') = flags_clear (rt_resource rt).
Proof.
  unfold update. destruct (any (attachments rt)).
  - intros H. apply bind_Done in H as (s & _ & H). injection H as <- _. auto.
  - intros [= <- _]. auto.
Qed.

Lemma devirtualize_keeps NDEBUG fg rt fg' rt' :
  preExecuteDevirtualize NDEBUG fg rt = Done (fg', rt') ->
  imported rt' = imported rt
  /\ flags_clear (rt_resource rt') = flags_clear (rt_resource rt).
Proof.
  unfold preExecuteDevirtualize. destruct (negb (imported rt)).
  - intros H. apply bind_Done in H as (? & _ & H). apply bind_Done in H as (? & _ & H).
    apply bind_Done in H as (? & _ & H). apply bind_Done in H as (? & _ & H).
    injection H as _ <-. auto.
  - intros [= _ <-]. auto.
Qed.

Lemma destroy_keeps fg rt :
  imported (snd (postExecuteDestroy fg rt)) = imported rt
  /\ flags_clear (rt_resource (snd (postExecuteDestroy fg rt)))
     = flags_clear (rt_resource rt).
Proof.
  unfold postExecuteDestroy.
  destruct (negb (imported rt)), (nonnull (target (rt_resource rt))); auto.
Qed.

(** C3.  [postExecuteDevirtualize] empties the clear mask, and whatever
    the frame graph does to the entry afterwards, pass after pass (update,
    devirtualize, destroy, the reset again, changes to other entries), the
    clear mask is empty in every state reached. *)
Theorem clear_stays_empty NDEBUG fg rt ops :
  flags_clear (rt_resource (postExecuteDevirtualize fg rt)) = NONE
  /\ Forall (fun s : State => flags_clear (rt_resource (snd s)) = NONE)
       (trace NDEBUG ops (fg, postExecuteDevirtualize fg rt)).
Proof.
  split; [reflexivity|]. apply trace_invariant; [|reflexivity].
  intros op [fg1 rt1] [fg2 rt2] Hs Hstep. simpl in Hs.
  destruct op as [pass| | | |es ns]; simpl in Hstep.
  - apply bind_Done in Hstep as ([rt3 ds] & E & Hstep). injection Hstep as _ <-.
    apply update_keeps in E as (_ & _ & Hc). simpl in *. congruence.
  - apply devirtualize_keeps in Hstep as (_ & Hc). simpl. congruence.
  - injection Hstep as Hstep. pose proof (destroy_keeps fg1 rt1) as (_ & Hc).
    rewrite Hstep in Hc. simpl in *. congruence.
  - injection Hstep as _ <-. reflexivity.
  - injection Hstep as _ <-. exact Hs.
Qed.

(** A run of four passes over the color-only entry: every operation
    returns, and after the first pass the clear mask is empty, so that
    [update] no longer puts the color bit in [discardStart] on its behalf. *)
Example clear_once_run :
  map (fun s : State => flags_clear (rt_resource (snd s)))
      (trace false
         [Update the_pass; Devirtualize; PostDevirtualize;
          Update the_pass; PostDevirtualize; Update the_pass; Destroy]
         (fg0, rt_color_resolved))
  = [COLOR; COLOR; NONE; NONE; NONE; NONE; NONE].
Proof. reflexivity. Qed.

(** C6.  For an imported entry, [preExecuteDevirtualize] and
    [postExecuteDestroy] return the frame graph and the entry as they were;
    and over any run of the per-pass protocol no call reaches the allocator
    and the real target stays the one supplied. *)
Theorem imported_untouched NDEBUG fg rt :
  imported rt = true ->
  preExecuteDevirtualize NDEBUG fg rt = Done (fg, rt)
  /\ postExecuteDestroy fg rt = (fg, rt)
  /\ forall ops,
       Forall (fun s : State =>
                 mResourceAllocator (fst s) = mResourceAllocator fg
                 /\ target (rt_resource (snd s)) = target (rt_resource rt))
              (trace NDEBUG ops (fg, rt)).
Proof.
  intros Hi. split; [|split].
  - unfold preExecuteDevirtualize. rewrite Hi. reflexivity.
  - unfold postExecuteDestroy. rewrite Hi. reflexivity.
  - intros ops.
    eapply Forall_impl;
      [apply (trace_invariant
                (fun s : State =>
                   imported (snd s) = true
                   /\ mResourceAllocator (fst s) = mResourceAllocator fg
                   /\ target (rt_resource (snd s)) = target (rt_resource rt)))|].
    + intros op [fg1 rt1] [fg2 rt2] (Hi1 & Ha1 & Ht1) Hstep. simpl in *.
      destruct op as [pass| | | |es ns]; simpl in Hstep.
      * apply bind_Done in Hstep as ([rt3 ds] & E & Hstep). injection Hstep as <- <-.
        apply update_keeps in E as (-> & -> & _). auto.
      * unfold preExecuteDevirtualize in Hstep. rewrite Hi1 in Hstep.
        injection Hstep as <- <-. auto.
      * unfold postExecuteDestroy in Hstep. rewrite Hi1 in Hstep.
        injection Hstep as <- <-. auto.
      * injection Hstep as <- <-. simpl. auto.
      * injection Hstep as <- <-. simpl. auto.
    + simpl. auto.
    + intros s (_ & H). exact H.
Qed.

Lemma imported_untouched_witness :
  imported rt_imported = true
  /\ preExecuteDevirtualize false fg0 rt_imported = Done (fg0, rt_imported)
  /\ postExecuteDestroy fg0 rt_imported = (fg0, rt_imported)
  /\ forall ops,
       Forall (fun s : State =>
                 mResourceAllocator (fst s) = mResourceAllocator fg0
                 /\ target (rt_resource (snd s)) = target (rt_resource rt_imported))
              (trace false ops (fg0, rt_imported)).
Proof.
  split; [reflexivity | apply (imported_untouched false fg0 rt_imported); reflexivity].
Defined.

(** * Further properties of the five operations *)

(** ** Bit masks as sets *)

Lemma land_eq_bits a u :
  Z.land a u = u <->
  (forall n, 0 <= n -> Z.testbit u n = true -> Z.testbit a n = true).
Proof.
  split.
  - intros H n Hn Hu. rewrite <- H, Z.land_spec in Hu.
    apply andb_true_iff in Hu. tauto.
  - intros H. apply Z.bits_inj'. intros n Hn. rewrite Z.land_spec.
    specialize (H n Hn). destruct (Z.testbit u n); [|apply andb_false_r].
    rewrite H; reflexivity.
Qed.

Lemma land_lor_l a b u : Z.land a u = u -> Z.land (Z.lor a b) u = u.
Proof.
  rewrite !land_eq_bits. intros H n Hn Hu. rewrite Z.lor_spec, (H n Hn Hu). reflexivity.
Qed.

Lemma land_lor_r a b u : Z.land b u = u -> Z.land (Z.lor a b) u = u.
Proof.
  rewrite !land_eq_bits. intros H n Hn Hu. rewrite Z.lor_spec, (H n Hn Hu).
  apply orb_true_r.
Qed.

Lemma land_lor_both a b u v :
  Z.land a u = u -> Z.land b v = v -> Z.land (Z.lor a b) (Z.lor u v) = Z.lor u v.
Proof.
  rewrite !land_eq_bits. intros Ha Hb n Hn H. rewrite Z.lor_spec in *.
  apply orb_true_iff in H as [H|H]; [rewrite (Ha n Hn H) | rewrite (Hb n Hn H)];
    [reflexivity | apply orb_true_r].
Qed.

Lemma mask_of_subset (sel sel' : AttachmentInfo -> bool) l :
  (forall a, sel a = true -> sel' a = true) ->
  forall i, Z.land (mask_of sel' i l) (mask_of sel i l) = mask_of sel i l.
Proof.
  intros Hs. induction l as [|a l IH]; intros i; simpl; [apply Z.land_0_r|].
  apply land_lor_both; [|apply IH].
  destruct (sel a) eqn:E; [rewrite (Hs a E); apply Z.land_diag | apply Z.land_0_r].
Qed.

(** ** resolve: what else it writes, and what it leaves alone *)

Lemma resolve_loop_no_valid S l :
  existsb isValid l = false -> forall i s, resolve_loop S i l s = Done s.
Proof.
  induction l as [|a l IH]; intros H i s; simpl in *; [reflexivity|].
  apply orb_false_iff in H as [Ha Hl]. unfold resolve_body. rewrite Ha. simpl.
  apply IH, Hl.
Qed.

(** [resolve] on an entry whose slots are all invalid. *)
Lemma resolve_empty fg rt :
  has_valid_slot (descriptor rt) = false ->
  resolve fg rt
  = Done (fg, mkEntry (name rt) (imported rt) (descriptor rt) (rt_resource rt) NONE 0 0).
Proof.
  intros Hv. unfold resolve.
  rewrite (resolve_loop_no_valid _ _ Hv). reflexivity.
Qed.

(** X1.  An entry without any valid slot resolves whatever the frame graph
    holds: the frame graph is returned as it was, and so is the entry, with
    an empty mask and zero width and height; its viewport and its clear
    mask are not written. *)
Theorem resolve_no_valid_slot fg rt :
  has_valid_slot (descriptor rt) = false ->
  resolve fg rt
  = Done (fg, mkEntry (name rt) (imported rt) (descriptor rt) (rt_resource rt) NONE 0 0).
Proof.
  intros Hv. unfold resolve.
  rewrite (resolve_loop_no_valid _ _ Hv). reflexivity.
Qed.

Lemma resolve_no_valid_slot_witness :
  has_valid_slot (descriptor rt_none) = false
  /\ resolve (mkFrameGraph [] [] (mkAllocator [] 0)) rt_none
     = Done (mkFrameGraph [] [] (mkAllocator [] 0),
             mkEntry (name rt_none) (imported rt_none) (descriptor rt_none)
                     (rt_resource rt_none) NONE 0 0).
Proof.
  split; [reflexivity | apply (resolve_no_valid_slot _ rt_none); reflexivity].
Defined.

(** The whole result of [resolve] on an entry with a valid slot. *)
Lemma resolve_entry fg rt :
  handles_ok fg (descriptor rt) = true ->
  has_valid_slot (descriptor rt) = true ->
  exists fg',
    frame fg fg'
    /\ let W := fold_left Z.max
                  (map fst (sizes fg (textures (desc_attachments (descriptor rt))))) 0 in
       let H := fold_left Z.max
                  (map snd (sizes fg (textures (desc_attachments (descriptor rt))))) 0 in
       let res := rt_resource rt in
       let unset := (viewport_width res =? 0) && (viewport_height res =? 0) in
       resolve fg rt
       = Done (fg',
               mkEntry (name rt) (imported rt) (descriptor rt)
                 (mkResource (if unset then W else viewport_width res)
                             (if unset then H else viewport_height res)
                             (clearFlags (descriptor rt))
                             (flags_discardStart res) (flags_discardEnd res) (target res))
                 (activeSlots (descriptor rt)) W H).
Proof.
  intros Hok Hv. unfold handles_ok in Hok. unfold resolve.
  destruct (resolve_loop_spec (samples (descriptor rt)) _ 0%nat fg
              (mkLocals NONE UINT32_MAX 0 UINT32_MAX 0) Hok)
    as (fg' & v' & E & Hf & Hm & Hminw & Hmaxw & Hminh & Hmaxh).
  exists fg'. split; [exact Hf|]. cbv zeta. rewrite E. cbn [bind fst snd].
  change (l_attachments v' = Z.lor 0 (activeSlots (descriptor rt))) in Hm.
  rewrite Z.lor_0_l in Hm. cbn [maxWidth maxHeight] in Hmaxw, Hmaxh.
  rewrite Hm, activeSlots_any, Hv, <- Hmaxw, <- Hmaxh.
  destruct ((minWidth v' =? maxWidth v') && (minHeight v' =? maxHeight v')) eqn:C;
    [|reflexivity].
  apply andb_true_iff in C as [C1 C2]. apply Z.eqb_eq in C1, C2.
  rewrite C1, C2. reflexivity.
Qed.

(** X2.  [resolve] returns with a mask that has the bit of a slot exactly
    when the slot is valid, and no bit besides those of the three slots; so
    the resolved mask agrees with the validity of the slots. *)
Theorem resolve_active_mask fg rt :
  handles_ok fg (descriptor rt) = true ->
  exists fg' rt',
    resolve fg rt = Done (fg', rt')
    /\ (forall k a,
          textures (desc_attachments (descriptor rt)) !! k = Some a ->
          (Z.land (attachments rt') (flags k) <> 0 <-> isValid a = true))
    /\ Z.land (Z.lor COLOR (Z.lor DEPTH STENCIL)) (attachments rt') = attachments rt'
    /\ mask_consistent rt'.
Proof.
  intros Hok. destruct (resolve_spec fg rt Hok)
    as (fg' & rt' & E & _ & _ & _ & Hd & _ & Hm & _).
  exists fg', rt'. split; [exact E|]. rewrite Hm.
  split; [|split].
  - intros k a Hk. unfold activeSlots. rewrite slots_mask_mask_of.
    apply mask_of_bit, Hk.
  - unfold activeSlots, textures. simpl.
    destruct (isValid (color (desc_attachments (descriptor rt)))),
             (isValid (depth (desc_attachments (descriptor rt)))),
             (isValid (stencil (desc_attachments (descriptor rt)))); reflexivity.
  - unfold mask_consistent. rewrite Hm, Hd. reflexivity.
Qed.

Lemma resolve_active_mask_witness :
  handles_ok fg0 (descriptor rt_mismatch) = true
  /\ exists fg' rt',
       resolve fg0 rt_mismatch = Done (fg', rt')
       /\ (forall k a,
             textures (desc_attachments (descriptor rt_mismatch)) !! k = Some a ->
             (Z.land (attachments rt') (flags k) <> 0 <-> isValid a = true))
       /\ Z.land (Z.lor COLOR (Z.lor DEPTH STENCIL)) (attachments rt') = attachments rt'
       /\ mask_consistent rt'.
Proof.
  split; [reflexivity | apply (resolve_active_mask fg0 rt_mismatch); reflexivity].
Defined.

(** X3.  When a slot is valid, [resolve] copies the descriptor's clear flags
    into the clear mask, and gives the viewport the resolved width and
    height if its width and height were both zero; a viewport with a
    non-zero width or height is kept.  The discard flags, the real target,
    the name, the imported flag and the descriptor are not written. *)
Theorem resolve_viewport_clear fg rt :
  handles_ok fg (descriptor rt) = true ->
  has_valid_slot (descriptor rt) = true ->
  exists fg' rt',
    resolve fg rt = Done (fg', rt')
    /\ flags_clear (rt_resource rt') = clearFlags (descriptor rt)
    /\ (viewport_width (rt_resource rt) = 0 -> viewport_height (rt_resource rt) = 0 ->
        viewport_width (rt_resource rt') = width rt'
        /\ viewport_height (rt_resource rt') = height rt')
    /\ (viewport_width (rt_resource rt) <> 0 \/ viewport_height (rt_resource rt) <> 0 ->
        viewport_width (rt_resource rt') = viewport_width (rt_resource rt)
        /\ viewport_height (rt_resource rt') = viewport_height (rt_resource rt))
    /\ flags_discardStart (rt_resource rt') = flags_discardStart (rt_resource rt)
    /\ flags_discardEnd (rt_resource rt') = flags_discardEnd (rt_resource rt)
    /\ target (rt_resource rt') = target (rt_resource rt)
    /\ name rt' = name rt /\ imported rt' = imported rt
    /\ descriptor rt' = descriptor rt.
Proof.
  intros Hok Hv. destruct (resolve_entry fg rt Hok Hv) as (fg' & _ & E).
  cbv zeta in E. eexists _, _. split; [exact E|].
  cbn [rt_resource flags_clear viewport_width viewport_height width height
       flags_discardStart flags_discardEnd target name imported descriptor].
  split; [reflexivity|]. split; [|split].
  - intros -> ->. simpl. auto.
  - intros H.
    destruct (Z.eqb_spec (viewport_width (rt_resource rt)) 0) as [E1|E1];
      destruct (Z.eqb_spec (viewport_height (rt_resource rt)) 0) as [E2|E2];
      simpl; auto. destruct H; contradiction.
  - auto 10.
Qed.

Lemma resolve_viewport_clear_witness :
  handles_ok fg0 (descriptor rt_full) = true
  /\ has_valid_slot (descriptor rt_full) = true
  /\ exists fg' rt',
       resolve fg0 rt_full = Done (fg', rt')
       /\ flags_clear (rt_resource rt') = clearFlags (descriptor rt_full)
       /\ (viewport_width (rt_resource rt_full) = 0 ->
           viewport_height (rt_resource rt_full) = 0 ->
           viewport_width (rt_resource rt') = width rt'
           /\ viewport_height (rt_resource rt') = height rt')
       /\ (viewport_width (rt_resource rt_full) <> 0
           \/ viewport_height (rt_resource rt_full) <> 0 ->
           viewport_width (rt_resource rt') = viewport_width (rt_resource rt_full)
           /\ viewport_height (rt_resource rt') = viewport_height (rt_resource rt_full))
       /\ flags_discardStart (rt_resource rt') = flags_discardStart (rt_resource rt_full)
       /\ flags_discardEnd (rt_resource rt') = flags_discardEnd (rt_resource rt_full)
       /\ target (rt_resource rt') = target (rt_resource rt_full)
       /\ name rt' = name rt_full /\ imported rt' = imported rt_full
       /\ descriptor rt' = descriptor rt_full.
Proof.
  split; [reflexivity|]. split; [reflexivity|].
  apply (resolve_viewport_clear fg0 rt_full); reflexivity.
Defined.

(** A viewport that is zero in one direction only is not replaced. *)
Example resolve_keeps_half_viewport :
  exists fg' rt',
    resolve fg0 (mkEntry "half" false (descriptor rt_color)
                         (mkResource 0 100 NONE NONE NONE None) NONE 0 0)
    = Done (fg', rt')
    /\ viewport_width (rt_resource rt') = 0 /\ viewport_height (rt_resource rt') = 100
    /\ width rt' = 256.
Proof. eexists _, _. split; [reflexivity|]. repeat split. Qed.

(** *** Usage flags written by [resolve] *)

Lemma frame_usage_requested fg fg' l p :
  frame fg fg' -> forall i, usage_requested fg' i l p = usage_requested fg i l p.
Proof.
  intros Hf. induction l as [|a l IH]; intros i; simpl; [reflexivity|].
  rewrite (frame_references fg fg' a p Hf), IH. reflexivity.
Qed.

Lemma resolve_body_usage S i a fg v fg1 v1 :
  resolve_body S i a (fg, v) = Done (fg1, v1) ->
  forall p e, mResourceEntries fg !! p = Some e ->
    exists e1, mResourceEntries fg1 !! p = Some e1
      /\ tex_usage (tex_descriptor e1)
         = Z.lor (tex_usage (tex_descriptor e))
                 (if references fg a p then usages i else 0)
      /\ (references fg a p = false -> e1 = e).
Proof.
  unfold resolve_body, references, entryOf. intros H p e Hl.
  destruct (isValid a); simpl in H.
  - destruct (getResourceEntryUnchecked fg (getHandle a)) as [[q eq]|f] eqn:E;
      [|discriminate].
    simpl in H. injection H as <- <-. simpl.
    apply getResourceEntryUnchecked_Done in E as (node & _ & _ & Hq).
    destruct (Nat.eqb_spec q p) as [->|Hne].
    + rewrite list_lookup_insert_eq by (eapply lookup_lt_Some; eassumption).
      rewrite Hl in Hq. injection Hq as <-.
      eexists. split; [reflexivity|]. simpl. split; [reflexivity | discriminate].
    + rewrite list_lookup_insert_ne by exact Hne. exists e.
      rewrite Z.lor_0_r. auto.
  - injection H as <- <-. exists e. rewrite Z.lor_0_r. auto.
Qed.

Lemma resolve_loop_usage S l :
  forall i fg v fg' v',
    resolve_loop S i l (fg, v) = Done (fg', v') ->
    forallb (bound fg) l = true ->
    forall p e, mResourceEntries fg !! p = Some e ->
      exists e', mResourceEntries fg' !! p = Some e'
        /\ tex_usage (tex_descriptor e')
           = Z.lor (tex_usage (tex_descriptor e)) (usage_requested fg i l p)
        /\ (referenced fg l p = false -> e' = e).
Proof.
  induction l as [|a l IH]; intros i fg v fg' v' H Hb p e Hl; simpl in *.
  - injection H as <- <-. exists e. rewrite Z.lor_0_r. auto.
  - apply andb_true_iff in Hb as [Ha Hbl].
    destruct (resolve_body_spec S i a fg v Ha) as (fg1 & v1 & E1 & Hf1 & _).
    rewrite E1 in H. simpl in H.
    destruct (resolve_body_usage _ _ _ _ _ _ _ E1 p e Hl) as (e1 & Hl1 & Hu1 & Hn1).
    rewrite <- (frame_forallb_bound fg fg1 l Hf1) in Hbl.
    destruct (IH _ _ _ _ _ H Hbl p e1 Hl1) as (e' & Hl' & Hu' & Hn').
    exists e'. split; [exact Hl'|].
    rewrite (frame_usage_requested fg fg1 l p Hf1) in Hu'.
    rewrite (frame_referenced fg fg1 l p Hf1) in Hn'.
    split.
    + rewrite Hu', Hu1, Z.lor_assoc. reflexivity.
    + intros Hr. apply orb_false_iff in Hr as [Hr1 Hr2].
      rewrite (Hn' Hr2). apply Hn1, Hr1.
Qed.

Lemma usage_requested_slot fg p l :
  forall i k a,
    l !! k = Some a -> references fg a p = true ->
    Z.land (usage_requested fg i l p) (usages (i + k)) = usages (i + k).
Proof.
  induction l as [|b l IH]; intros i k a Hk Hr; [discriminate|].
  destruct k as [|k]; simpl in *.
  - injection Hk as ->. rewrite Hr, Nat.add_0_r. apply land_lor_l, Z.land_diag.
  - apply land_lor_r. rewrite Nat.add_succ_r. apply (IH (S i) k a Hk Hr).
Qed.

(** X4.  After [resolve], the usage of every texture entry is its former
    usage with the attachment usages of the valid slots that refer to it
    OR-ed in: nothing is removed, the usage of slot [k] (color, depth or
    stencil attachment) is there for each valid slot [k] that refers to the
    entry, and an entry that no valid slot refers to is unchanged as a
    whole. *)
Theorem resolve_usage fg rt :
  handles_ok fg (descriptor rt) = true ->
  exists fg' rt',
    resolve fg rt = Done (fg', rt')
    /\ forall p e,
         mResourceEntries fg !! p = Some e ->
         exists e', mResourceEntries fg' !! p = Some e'
           /\ tex_usage (tex_descriptor e')
              = Z.lor (tex_usage (tex_descriptor e))
                  (usage_requested fg 0 (textures (desc_attachments (descriptor rt))) p)
           /\ Z.land (tex_usage (tex_descriptor e')) (tex_usage (tex_descriptor e))
              = tex_usage (tex_descriptor e)
           /\ (forall k a,
                 textures (desc_attachments (descriptor rt)) !! k = Some a ->
                 references fg a p = true ->
                 Z.land (tex_usage (tex_descriptor e')) (usages k) = usages k)
           /\ (referenced fg (textures (desc_attachments (descriptor rt))) p = false ->
               e' = e).
Proof.
  intros Hok. destruct (resolve_spec fg rt Hok) as (fg' & rt' & E & _).
  exists fg', rt'. split; [exact E|].
  destruct (resolve_inv _ _ _ _ E) as (v' & EL).
  intros p e Hl.
  destruct (resolve_loop_usage _ _ _ _ _ _ _ EL Hok p e Hl) as (e' & Hl' & Hu & Hn).
  exists e'. split; [exact Hl'|]. split; [exact Hu|]. rewrite Hu.
  split; [apply land_lor_l, Z.land_diag|]. split; [|exact Hn].
  intros k a Hk Hr. apply land_lor_r.
  apply (usage_requested_slot fg p _ 0%nat k a Hk Hr).
Qed.

Lemma resolve_usage_witness :
  handles_ok fg0 (descriptor rt_full) = true
  /\ exists fg' rt',
       resolve fg0 rt_full = Done (fg', rt')
       /\ forall p e,
            mResourceEntries fg0 !! p = Some e ->
            exists e', mResourceEntries fg' !! p = Some e'
              /\ tex_usage (tex_descriptor e')
                 = Z.lor (tex_usage (tex_descriptor e))
                     (usage_requested fg0 0
                        (textures (desc_attachments (descriptor rt_full))) p)
              /\ Z.land (tex_usage (tex_descriptor e')) (tex_usage (tex_descriptor e))
                 = tex_usage (tex_descriptor e)
              /\ (forall k a,
                    textures (desc_attachments (descriptor rt_full)) !! k = Some a ->
                    references fg0 a p = true ->
                    Z.land (tex_usage (tex_descriptor e')) (usages k) = usages k)
              /\ (referenced fg0 (textures (desc_attachments (descriptor rt_full))) p
                  = false -> e' = e).
Proof.
  split; [reflexivity | apply (resolve_usage fg0 rt_full); reflexivity].
Defined.

(** The texture behind both the color and the stencil slot ends as a color
    and stencil attachment; the one no slot names is untouched. *)
Example resolve_full_usage :
  exists fg' rt', resolve fg0 rt_full = Done (fg', rt')
    /\ tex_usage <$> (tex_descriptor <$> mResourceEntries fg' !! 0%nat)
       = Some (Z.lor COLOR_ATTACHMENT STENCIL_ATTACHMENT)
    /\ mResourceEntries fg' !! 1%nat = Some tex512x256.
Proof. eexists _, _. split; [reflexivity|]. split; reflexivity. Qed.

(** X5.  [resolve] never touches the resource nodes or the allocator, keeps
    the number of texture entries, and leaves the width, the height, the
    level count, the real texture and the discard intents of every texture
    entry as they were. *)
Theorem resolve_frame fg rt :
  handles_ok fg (descriptor rt) = true ->
  exists fg' rt',
    resolve fg rt = Done (fg', rt')
    /\ mResourceNodes fg' = mResourceNodes fg
    /\ mResourceAllocator fg' = mResourceAllocator fg
    /\ length (mResourceEntries fg') = length (mResourceEntries fg)
    /\ forall p e,
         mResourceEntries fg !! p = Some e ->
         exists e', mResourceEntries fg' !! p = Some e'
           /\ tex_width (tex_descriptor e') = tex_width (tex_descriptor e)
           /\ tex_height (tex_descriptor e') = tex_height (tex_descriptor e)
           /\ tex_levels (tex_descriptor e') = tex_levels (tex_descriptor e)
           /\ tex_texture e' = tex_texture e
           /\ tex_discardStart e' = tex_discardStart e
           /\ tex_discardEnd e' = tex_discardEnd e.
Proof.
  intros Hok. destruct (resolve_spec fg rt Hok) as (fg' & rt' & E & (Hn & Ha & Hf) & _).
  exists fg', rt'. split; [exact E|]. split; [exact Hn|]. split; [exact Ha|].
  split; [symmetry; eapply Forall2_length; exact Hf|].
  intros p e Hl. destruct (Forall2_lookup_l _ _ _ _ _ Hf Hl) as (e' & Hl' & Hg).
  exists e'. split; [exact Hl' | exact Hg].
Qed.

Lemma resolve_frame_witness :
  handles_ok fg0 (descriptor rt_full) = true
  /\ exists fg' rt',
       resolve fg0 rt_full = Done (fg', rt')
       /\ mResourceNodes fg' = mResourceNodes fg0
       /\ mResourceAllocator fg' = mResourceAllocator fg0
       /\ length (mResourceEntries fg') = length (mResourceEntries fg0)
       /\ forall p e,
            mResourceEntries fg0 !! p = Some e ->
            exists e', mResourceEntries fg' !! p = Some e'
              /\ tex_width (tex_descriptor e') = tex_width (tex_descriptor e)
              /\ tex_height (tex_descriptor e') = tex_height (tex_descriptor e)
              /\ tex_levels (tex_descriptor e') = tex_levels (tex_descriptor e)
              /\ tex_texture e' = tex_texture e
              /\ tex_discardStart e' = tex_discardStart e
              /\ tex_discardEnd e' = tex_discardEnd e.
Proof.
  split; [reflexivity | apply (resolve_frame fg0 rt_full); reflexivity].
Defined.

(** *** A second [resolve] changes nothing *)

Lemma land_lor_same a u : Z.land a u = u -> Z.lor a u = a.
Proof.
  rewrite land_eq_bits. intros H. apply Z.bits_inj'. intros n Hn.
  rewrite Z.lor_spec. specialize (H n Hn).
  destruct (Z.testbit u n); [rewrite H by reflexivity; reflexivity | apply orb_false_r].
Qed.

Lemma setUsageSamples_id e :
  setUsageSamples e (tex_usage (tex_descriptor e)) (tex_samples (tex_descriptor e)) = e.
Proof. destruct e as [[w h l s u] t ds de]. reflexivity. Qed.

Lemma setEntries_id fg : setEntries fg (mResourceEntries fg) = fg.
Proof. destruct fg. reflexivity. Qed.

(** The entry behind a slot already has what [resolve] would write. *)
Lemma resolve_body_settled S i a fg v :
  bound fg a = true ->
  (forall p e, entryOf fg a = Some (p, e) ->
     Z.lor (tex_usage (tex_descriptor e)) (usages i) = tex_usage (tex_descriptor e)
     /\ (takes_samples e = true -> tex_samples (tex_descriptor e) = S)) ->
  exists v', resolve_body S i a (fg, v) = Done (fg, v').
Proof.
  intros Hb Hs. unfold resolve_body. unfold bound in Hb. unfold entryOf in Hs.
  destruct (isValid a); simpl in *; [|eauto].
  destruct (getResourceEntryUnchecked fg (getHandle a)) as [[p e]|f] eqn:E; [|discriminate].
  destruct (Hs p e eq_refl) as (Hu & Hsm). simpl. rewrite Hu.
  fold (takes_samples e).
  assert (Hsmp : (if takes_samples e then S else tex_samples (tex_descriptor e))
                 = tex_samples (tex_descriptor e))
    by (destruct (takes_samples e); [symmetry; apply Hsm; reflexivity | reflexivity]).
  rewrite Hsmp, setUsageSamples_id.
  apply getResourceEntryUnchecked_Done in E as (node & _ & _ & Hl).
  rewrite (list_insert_id _ _ _ Hl), setEntries_id. eauto.
Qed.

Lemma resolve_loop_settled S l :
  forall i fg v,
    forallb (bound fg) l = true ->
    (forall k a p e, l !! k = Some a -> entryOf fg a = Some (p, e) ->
       Z.lor (tex_usage (tex_descriptor e)) (usages (i + k)) = tex_usage (tex_descriptor e)
       /\ (takes_samples e = true -> tex_samples (tex_descriptor e) = S)) ->
    exists v', resolve_loop S i l (fg, v) = Done (fg, v').
Proof.
  induction l as [|a l IH]; intros i fg v Hb Hs; simpl in *; [eauto|].
  apply andb_true_iff in Hb as [Ha Hl].
  destruct (resolve_body_settled S i a fg v Ha) as (v1 & E1).
  { intros p e He. specialize (Hs 0%nat a p e eq_refl He).
    rewrite Nat.add_0_r in Hs. exact Hs. }
  rewrite E1. simpl. apply IH; [exact Hl|].
  intros k b p e Hk He. specialize (Hs (Datatypes.S k) b p e Hk He).
  rewrite Nat.add_succ_r in Hs. exact Hs.
Qed.

Lemma entryOf_lookup fg a p e :
  entryOf fg a = Some (p, e) -> mResourceEntries fg !! p = Some e.
Proof.
  unfold entryOf. destruct (isValid a); [|discriminate].
  destruct (getResourceEntryUnchecked fg (getHandle a)) as [r|] eqn:G; [|discriminate].
  intros [= ->]. apply getResourceEntryUnchecked_Done in G as (? & _ & _ & G). exact G.
Qed.

Lemma entryOf_references fg a p e : entryOf fg a = Some (p, e) -> references fg a p = true.
Proof. unfold references. intros ->. apply Nat.eqb_refl. Qed.

(** After [resolve], every slot is settled. *)
Lemma resolve_settles fg rt fg' rt' :
  handles_ok fg (descriptor rt) = true ->
  resolve fg rt = Done (fg', rt') ->
  forall k a p e',
    textures (desc_attachments (descriptor rt)) !! k = Some a ->
    entryOf fg' a = Some (p, e') ->
    Z.lor (tex_usage (tex_descriptor e')) (usages k) = tex_usage (tex_descriptor e')
    /\ (takes_samples e' = true -> tex_samples (tex_descriptor e') = samples (descriptor rt)).
Proof.
  intros Hok E k a p e' Hk He'.
  destruct (resolve_spec fg rt Hok) as (fg1 & rt1 & E1 & Hf & _).
  rewrite E in E1. injection E1 as <- <-.
  destruct (resolve_inv _ _ _ _ E) as (v' & EL).
  pose proof (frame_entryOf fg fg' a Hf) as Hfe. rewrite He' in Hfe.
  destruct (entryOf fg a) as [[q e]|] eqn:He; [|contradiction].
  simpl in Hfe. destruct Hfe as [Hpq _]. subst q.
  pose proof (entryOf_lookup _ _ _ _ He) as Hl.
  pose proof (entryOf_lookup _ _ _ _ He') as Hl'.
  pose proof (entryOf_references _ _ _ _ He) as Hr.
  destruct (resolve_loop_usage _ _ _ _ _ _ _ EL Hok p e Hl) as (e1 & Hl1 & Hu & _).
  destruct (resolve_loop_samples _ _ _ _ _ _ _ EL Hok p e Hl) as (e2 & Hl2 & Hs & Hsa).
  rewrite Hl' in Hl1, Hl2. injection Hl1 as <-. injection Hl2 as <-.
  split.
  - apply land_lor_same. rewrite Hu. apply land_lor_r.
    apply (usage_requested_slot fg p _ 0%nat k a Hk Hr).
  - assert (Href : referenced fg (textures (desc_attachments (descriptor rt))) p = true).
    { unfold referenced. apply existsb_exists. exists a. split; [|exact Hr].
      apply list_elem_of_In, list_elem_of_lookup. eauto. }
    rewrite Href in Hs. simpl in Hs. intros Ht.
    destruct (takes_samples e) eqn:Te; [exact Hs|]. exfalso.
    unfold takes_samples in Ht, Te. rewrite Hsa, Hs in Ht. congruence.
Qed.

Lemma Done_pair_inj {A B : Type} (a a' : A) (b b' : B) :
  Done (a, b) = Done (a', b') -> a = a' /\ b = b'.
Proof. intros [= -> ->]. auto. Qed.

(** X6.  Resolving again right after [resolve] changes nothing at all: the
    second call returns the frame graph and the entry that the first one
    returned (usages, sample counts, viewport and clear mask included). *)
Theorem resolve_fixed_point fg rt :
  handles_ok fg (descriptor rt) = true ->
  exists fg' rt',
    resolve fg rt = Done (fg', rt') /\ resolve fg' rt' = Done (fg', rt').
Proof.
  intros Hok.
  destruct (resolve_spec fg rt Hok) as (fg' & rt' & E & Hf & _ & _ & Hd & _).
  exists fg', rt'. split; [exact E|].
  assert (Hok' : handles_ok fg' (descriptor rt') = true).
  { unfold handles_ok in *. rewrite Hd, (frame_forallb_bound fg fg' _ Hf). exact Hok. }
  destruct (has_valid_slot (descriptor rt)) eqn:Hv.
  - destruct (resolve_entry fg rt Hok Hv) as (fg1 & _ & E1). cbv zeta in E1.
    assert (Hv' : has_valid_slot (descriptor rt') = true) by (rewrite Hd; exact Hv).
    destruct (resolve_entry fg' rt' Hok' Hv') as (fg2 & _ & E2). cbv zeta in E2.
    (* the store is returned as it is *)
    destruct (resolve_inv _ _ _ _ E2) as (v2 & EL2).
    destruct (resolve_loop_settled (samples (descriptor rt'))
                (textures (desc_attachments (descriptor rt'))) 0%nat fg'
                (mkLocals NONE UINT32_MAX 0 UINT32_MAX 0) Hok') as (v3 & EL3).
    { intros k a p e Hk He. rewrite Hd in Hk |- *.
      apply (resolve_settles fg rt fg' rt' Hok E k a p e Hk He). }
    rewrite EL3 in EL2. apply Done_pair_inj in EL2 as [<- _].
    (* and so is the entry *)
    rewrite E2. f_equal. f_equal.
    rewrite Hd, (frame_sizes fg fg' _ Hf).
    rewrite E in E1. apply Done_pair_inj in E1 as [_ Hrt'].
    set (W := fold_left Z.max
                (map fst (sizes fg (textures (desc_attachments (descriptor rt))))) 0) in *.
    set (H := fold_left Z.max
                (map snd (sizes fg (textures (desc_attachments (descriptor rt))))) 0) in *.
    clearbody W H. clear - Hrt'. subst rt'.
    cbn [name imported rt_resource viewport_width viewport_height flags_discardStart
         flags_discardEnd target].
    destruct ((viewport_width (rt_resource rt) =? 0)
              && (viewport_height (rt_resource rt) =? 0)) eqn:U.
    + rewrite ?U. destruct ((W =? 0) && (H =? 0)); reflexivity.
    + rewrite ?U. reflexivity.
  - rewrite (resolve_empty fg rt Hv) in E. apply Done_pair_inj in E as [<- <-].
    apply (resolve_empty fg _ Hv).
Qed.

Lemma resolve_fixed_point_witness :
  handles_ok fg0 (descriptor rt_full) = true
  /\ exists fg' rt',
       resolve fg0 rt_full = Done (fg', rt') /\ resolve fg' rt' = Done (fg', rt').
Proof.
  split; [reflexivity | apply (resolve_fixed_point fg0 rt_full); reflexivity].
Defined.

(** ** update: what it keeps, and how it composes *)

(** X7.  [update] writes the two discard masks and nothing else, and running
    it again for the same pass and frame graph returns the same entry and
    the same diagnostics. *)
Theorem update_again fg pass rt rt1 ds :
  update fg pass rt = Done (rt1, ds) ->
  update fg pass rt1 = Done (rt1, ds)
  /\ name rt1 = name rt /\ imported rt1 = imported rt
  /\ descriptor rt1 = descriptor rt /\ attachments rt1 = attachments rt
  /\ width rt1 = width rt /\ height rt1 = height rt
  /\ viewport_width (rt_resource rt1) = viewport_width (rt_resource rt)
  /\ viewport_height (rt_resource rt1) = viewport_height (rt_resource rt)
  /\ flags_clear (rt_resource rt1) = flags_clear (rt_resource rt)
  /\ target (rt_resource rt1) = target (rt_resource rt).
Proof.
  unfold update. destruct (any (attachments rt)) eqn:Hany.
  - intros H. apply bind_Done in H as (s & EL & H).
    apply Done_pair_inj in H as [<- <-].
    cbn [setResource attachments descriptor rt_resource name imported width height
         viewport_width viewport_height flags_clear target].
    rewrite Hany, EL. cbn [bind]. auto 12.
  - intros H. apply Done_pair_inj in H as [<- <-]. rewrite Hany. auto 12.
Qed.

Lemma update_again_witness :
  update fg0 the_pass rt_full_resolved
  = Done (setResource rt_full_resolved (mkResource 256 512 DEPTH 7 0 None),
          [DoesntDeclare "pass" "full"])
  /\ update fg0 the_pass (setResource rt_full_resolved (mkResource 256 512 DEPTH 7 0 None))
     = Done (setResource rt_full_resolved (mkResource 256 512 DEPTH 7 0 None),
             [DoesntDeclare "pass" "full"]).
Proof.
  split; [reflexivity|].
  apply (update_again fg0 the_pass rt_full_resolved _ _ eq_refl).
Defined.

Lemma discards_end_valid fg a : discards_end fg a = true -> isValid a = true.
Proof. unfold discards_end. intros H. apply andb_true_iff in H. tauto. Qed.

Lemma discards_start_valid fg a : discards_start fg a = true -> isValid a = true.
Proof. unfold discards_start. intros H. apply andb_true_iff in H. tauto. Qed.

(** X8.  For a resolved entry, [update] only ever asks to discard active
    slots: every bit of [discardEnd] is a bit of the entry's mask, and every
    bit of [discardStart] is a bit of the mask or of the clear mask. *)
Theorem update_discards_active_slots fg pass rt :
  mask_consistent rt ->
  has_valid_slot (descriptor rt) = true ->
  handles_ok fg (descriptor rt) = true ->
  exists rt' diags,
    update fg pass rt = Done (rt', diags)
    /\ Z.land (attachments rt) (flags_discardEnd (rt_resource rt'))
       = flags_discardEnd (rt_resource rt')
    /\ Z.land (Z.lor (attachments rt) (flags_clear (rt_resource rt)))
              (flags_discardStart (rt_resource rt'))
       = flags_discardStart (rt_resource rt').
Proof.
  intros Hm Hv Hok. rewrite <- (mask_consistent_any rt Hm) in Hv.
  eexists _, _. split; [apply (update_spec fg pass rt Hv Hok)|].
  cbn [setResource rt_resource flags_discardStart flags_discardEnd].
  unfold mask_consistent, activeSlots in Hm. rewrite slots_mask_mask_of in Hm.
  rewrite Hm. split.
  - apply mask_of_subset. apply discards_end_valid.
  - apply land_lor_both; [|apply Z.land_diag].
    apply mask_of_subset. apply discards_start_valid.
Qed.

Lemma update_discards_active_slots_witness :
  mask_consistent rt_full_resolved
  /\ has_valid_slot (descriptor rt_full_resolved) = true
  /\ handles_ok fg0 (descriptor rt_full_resolved) = true
  /\ exists rt' diags,
       update fg0 the_pass rt_full_resolved = Done (rt', diags)
       /\ Z.land (attachments rt_full_resolved) (flags_discardEnd (rt_resource rt'))
          = flags_discardEnd (rt_resource rt')
       /\ Z.land (Z.lor (attachments rt_full_resolved)
                        (flags_clear (rt_resource rt_full_resolved)))
                 (flags_discardStart (rt_resource rt'))
          = flags_discardStart (rt_resource rt').
Proof.
  split; [reflexivity|]. split; [reflexivity|]. split; [reflexivity|].
  apply (update_discards_active_slots fg0 the_pass rt_full_resolved); reflexivity.
Defined.

(** X9.  Once [postExecuteDevirtualize] has run, [update] puts a slot's bit
    in [discardStart] exactly when the slot is valid and its resource node
    declares "discard at start": the clear flags of the descriptor no longer
    count. *)
Theorem update_after_reset fg pass rt :
  mask_consistent rt ->
  has_valid_slot (descriptor rt) = true ->
  handles_ok fg (descriptor rt) = true ->
  exists rt' diags,
    update fg pass (postExecuteDevirtualize fg rt) = Done (rt', diags)
    /\ flags_discardStart (rt_resource rt')
       = mask_of (discards_start fg) 0 (textures (desc_attachments (descriptor rt)))
    /\ forall k a,
         textures (desc_attachments (descriptor rt)) !! k = Some a ->
         (Z.land (flags_discardStart (rt_resource rt')) (flags k) <> 0
          <-> discards_start fg a = true).
Proof.
  intros Hm Hv Hok. rewrite <- (mask_consistent_any rt Hm) in Hv.
  eexists _, _.
  split; [apply (update_spec fg pass (postExecuteDevirtualize fg rt) Hv Hok)|].
  cbn [postExecuteDevirtualize setResource rt_resource flags_discardStart flags_clear
       descriptor].
  unfold NONE. rewrite Z.lor_0_r. split; [reflexivity|].
  intros k a Hk. apply mask_of_bit, Hk.
Qed.

Lemma update_after_reset_witness :
  mask_consistent rt_full_resolved
  /\ has_valid_slot (descriptor rt_full_resolved) = true
  /\ handles_ok fg0 (descriptor rt_full_resolved) = true
  /\ exists rt' diags,
       update fg0 the_pass (postExecuteDevirtualize fg0 rt_full_resolved)
       = Done (rt', diags)
       /\ flags_discardStart (rt_resource rt')
          = mask_of (discards_start fg0) 0
              (textures (desc_attachments (descriptor rt_full_resolved)))
       /\ forall k a,
            textures (desc_attachments (descriptor rt_full_resolved)) !! k = Some a ->
            (Z.land (flags_discardStart (rt_resource rt')) (flags k) <> 0
             <-> discards_start fg0 a = true).
Proof.
  split; [reflexivity|]. split; [reflexivity|]. split; [reflexivity|].
  apply (update_after_reset fg0 the_pass rt_full_resolved); reflexivity.
Defined.

(** The depth slot is cleared at first use ([discardStart] is 7), not
    afterwards ([discardStart] is color and stencil, 5). *)
Example update_full_after_reset :
  exists rt' diags,
    update fg0 the_pass (postExecuteDevirtualize fg0 rt_full_resolved) = Done (rt', diags)
    /\ flags_discardStart (rt_resource rt') = 5.
Proof. eexists _, _. split; reflexivity. Qed.

(** ** preExecuteDevirtualize and postExecuteDestroy together *)

Lemma count_calls_app f cs cs' :
  count_calls f (cs ++ cs') = (count_calls f cs + count_calls f cs')%nat.
Proof. induction cs as [|c cs IH]; simpl; [reflexivity | rewrite IH; lia]. Qed.

(** What a successful [preExecuteDevirtualize] returned, for an entry that
    is not imported. *)
Lemma devirtualize_inv NDEBUG fg rt fg1 rt1 :
  imported rt = false ->
  preExecuteDevirtualize NDEBUG fg rt = Done (fg1, rt1) ->
  exists info0 info1,
    let r := createRenderTarget (mResourceAllocator fg) (name rt)
               (attachments rt) (width rt) (height rt) (samples (descriptor rt))
               info0 info1 emptyInfo in
    NDEBUG || any (attachments rt) = true
    /\ fg1 = setAllocator fg (fst r)
    /\ rt1 = setResource rt
               (mkResource (viewport_width (rt_resource rt)) (viewport_height (rt_resource rt))
                  (flags_clear (rt_resource rt)) (flags_discardStart (rt_resource rt))
                  (flags_discardEnd (rt_resource rt)) (snd r)).
Proof.
  intros Hi. unfold preExecuteDevirtualize. rewrite Hi. cbn [negb]. intros H.
  apply bind_Done in H as ([] & Ha & H). apply bind_Done in H as (infos & _ & H).
  apply bind_Done in H as (info0 & _ & H). apply bind_Done in H as (info1 & _ & H).
  apply Done_pair_inj in H as [<- <-]. exists info0, info1. cbv zeta.
  split; [|split; reflexivity].
  unfold assert in Ha. destruct (NDEBUG || any (attachments rt)); [reflexivity | discriminate].
Qed.

Lemma setResource_target_id rt :
  target (rt_resource rt) = None ->
  setResource rt
    (mkResource (viewport_width (rt_resource rt)) (viewport_height (rt_resource rt))
       (flags_clear (rt_resource rt)) (flags_discardStart (rt_resource rt))
       (flags_discardEnd (rt_resource rt)) None) = rt.
Proof. destruct rt as [n i d [vw vh c ds de t] a w h]. simpl. intros ->. reflexivity. Qed.

(** X10.  Devirtualize, then destroy: for an entry that is not imported and
    has no real target yet, a successful [preExecuteDevirtualize] leaves in
    the entry the handle that the allocator's [createRenderTarget] returned,
    and [postExecuteDestroy] right after passes that very handle to
    [destroyRenderTarget], gives the entry back as it was and leaves the
    texture entries and resource nodes alone. *)
Theorem devirtualize_then_destroy NDEBUG fg rt :
  imported rt = false ->
  target (rt_resource rt) = None ->
  mask_consistent rt ->
  handles_ok fg (descriptor rt) = true ->
  NDEBUG || devirtualize_ready fg rt = true ->
  let r := createRenderTarget (mResourceAllocator fg) (name rt)
             (attachments rt) (width rt) (height rt) (samples (descriptor rt))
             (binding fg (color (desc_attachments (descriptor rt))))
             (binding fg (depth (desc_attachments (descriptor rt))))
             emptyInfo in
  exists fg1 rt1,
    preExecuteDevirtualize NDEBUG fg rt = Done (fg1, rt1)
    /\ mResourceAllocator fg1 = fst r
    /\ target (rt_resource rt1) = snd r
    /\ snd r <> None
    /\ snd (postExecuteDestroy fg1 rt1) = rt
    /\ mResourceEntries (fst (postExecuteDestroy fg1 rt1)) = mResourceEntries fg
    /\ mResourceNodes (fst (postExecuteDestroy fg1 rt1)) = mResourceNodes fg
    /\ mResourceAllocator (fst (postExecuteDestroy fg1 rt1))
       = destroyRenderTarget (fst r) (snd r)
    /\ calls (mResourceAllocator (fst (postExecuteDestroy fg1 rt1)))
       = calls (mResourceAllocator fg)
         ++ [CreateRenderTarget (name rt) (attachments rt) (width rt) (height rt)
               (samples (descriptor rt))
               (binding fg (color (desc_attachments (descriptor rt))))
               (binding fg (depth (desc_attachments (descriptor rt))))
               emptyInfo;
             DestroyRenderTarget (snd r)].
Proof.
  intros Hi Ht Hm Hok Hr r.
  pose proof (devirtualize_spec NDEBUG fg rt Hi Hok (or_intror Hm)) as E.
  unfold devirtualize_ready in Hr. rewrite Hr in E. cbv zeta in E. fold r in E.
  eexists _, _. split; [exact E|].
  split; [reflexivity|]. split; [reflexivity|]. split; [discriminate|].
  unfold postExecuteDestroy.
  cbn [setResource imported rt_resource target].
  rewrite Hi. cbn [negb]. change (nonnull (snd r)) with true. cbv iota.
  cbn [fst snd setResource setAllocator rt_resource mResourceAllocator mResourceEntries
       mResourceNodes name imported descriptor attachments width height
       viewport_width viewport_height flags_clear flags_discardStart flags_discardEnd].
  split; [apply (setResource_target_id rt Ht)|].
  split; [reflexivity|]. split; [reflexivity|]. split; [reflexivity|].
  subst r. simpl. rewrite <- app_assoc. reflexivity.
Qed.

Lemma devirtualize_then_destroy_witness :
  imported rt_color_resolved = false
  /\ target (rt_resource rt_color_resolved) = None
  /\ mask_consistent rt_color_resolved
  /\ handles_ok fg0 (descriptor rt_color_resolved) = true
  /\ false || devirtualize_ready fg0 rt_color_resolved = true
  /\ let r := createRenderTarget (mResourceAllocator fg0) (name rt_color_resolved)
                (attachments rt_color_resolved) (width rt_color_resolved)
                (height rt_color_resolved) (samples (descriptor rt_color_resolved))
                (binding fg0 (color (desc_attachments (descriptor rt_color_resolved))))
                (binding fg0 (depth (desc_attachments (descriptor rt_color_resolved))))
                emptyInfo in
     exists fg1 rt1,
       preExecuteDevirtualize false fg0 rt_color_resolved = Done (fg1, rt1)
       /\ mResourceAllocator fg1 = fst r
       /\ target (rt_resource rt1) = snd r
       /\ snd r <> None
       /\ snd (postExecuteDestroy fg1 rt1) = rt_color_resolved
       /\ mResourceEntries (fst (postExecuteDestroy fg1 rt1)) = mResourceEntries fg0
       /\ mResourceNodes (fst (postExecuteDestroy fg1 rt1)) = mResourceNodes fg0
       /\ mResourceAllocator (fst (postExecuteDestroy fg1 rt1))
          = destroyRenderTarget (fst r) (snd r)
       /\ calls (mResourceAllocator (fst (postExecuteDestroy fg1 rt1)))
          = calls (mResourceAllocator fg0)
            ++ [CreateRenderTarget (name rt_color_resolved) (attachments rt_color_resolved)
                  (width rt_color_resolved) (height rt_color_resolved)
                  (samples (descriptor rt_color_resolved))
                  (binding fg0 (color (desc_attachments (descriptor rt_color_resolved))))
                  (binding fg0 (depth (desc_attachments (descriptor rt_color_resolved))))
                  emptyInfo;
                DestroyRenderTarget (snd r)].
Proof.
  split; [reflexivity|]. split; [reflexivity|]. split; [reflexivity|].
  split; [reflexivity|]. split; [reflexivity|].
  apply (devirtualize_then_destroy false fg0 rt_color_resolved); reflexivity.
Defined.

(** X11.  [preExecuteDevirtualize] does not look at the real target it is
    about to overwrite.  Called a second time it succeeds again: the
    allocator receives a second, identical creation request, and the handle
    it returns for it, another one than the first, replaces the first
    handle in the entry.  The destructions that follow, however many, pass
    the second handle to [destroyRenderTarget] once and leave the entry
    without a real target: the first handle is never destroyed. *)
Theorem devirtualize_twice NDEBUG fg rt :
  imported rt = false ->
  mask_consistent rt ->
  handles_ok fg (descriptor rt) = true ->
  NDEBUG || devirtualize_ready fg rt = true ->
  let c := CreateRenderTarget (name rt) (attachments rt) (width rt) (height rt)
             (samples (descriptor rt))
             (binding fg (color (desc_attachments (descriptor rt))))
             (binding fg (depth (desc_attachments (descriptor rt))))
             emptyInfo in
  let create al :=
    createRenderTarget al (name rt) (attachments rt) (width rt) (height rt)
      (samples (descriptor rt))
      (binding fg (color (desc_attachments (descriptor rt))))
      (binding fg (depth (desc_attachments (descriptor rt))))
      emptyInfo in
  let r1 := create (mResourceAllocator fg) in
  let r2 := create (fst r1) in
  exists fg1 rt1 fg2 rt2,
    preExecuteDevirtualize NDEBUG fg rt = Done (fg1, rt1)
    /\ mResourceAllocator fg1 = fst r1
    /\ target (rt_resource rt1) = snd r1
    /\ preExecuteDevirtualize NDEBUG fg1 rt1 = Done (fg2, rt2)
    /\ mResourceAllocator fg2 = fst r2
    /\ target (rt_resource rt2) = snd r2
    /\ snd r2 <> snd r1
    /\ calls (mResourceAllocator fg2) = calls (mResourceAllocator fg) ++ [c; c]
    /\ forall n,
         target (rt_resource (snd (destroy_times (S n) (fg2, rt2)))) = None
         /\ calls (mResourceAllocator (fst (destroy_times (S n) (fg2, rt2))))
            = calls (mResourceAllocator fg) ++ [c; c; DestroyRenderTarget (snd r2)].
Proof.
  intros Hi Hm Hok Hr c create r1 r2.
  pose proof (devirtualize_spec NDEBUG fg rt Hi Hok (or_intror Hm)) as E.
  unfold devirtualize_ready in Hr. rewrite Hr in E. cbv zeta in E.
  fold (create (mResourceAllocator fg)) in E. fold r1 in E.
  match type of E with _ = Done (?a, ?b) => set (fg1 := a) in *; set (rt1 := b) in * end.
  assert (E2 := devirtualize_spec NDEBUG fg1 rt1 Hi Hok (or_intror Hm)).
  change (any (attachments rt1)) with (any (attachments rt)) in E2.
  change (forallb (attachment_ready fg1 (samples (descriptor rt1)))
            (textures (desc_attachments (descriptor rt1))))
    with (forallb (attachment_ready fg (samples (descriptor rt)))
            (textures (desc_attachments (descriptor rt)))) in E2.
  rewrite Hr in E2. cbv zeta in E2.
  eexists fg1, rt1, _, _. split; [exact E|].
  split; [reflexivity|]. split; [reflexivity|]. split; [exact E2|].
  split; [reflexivity|]. split; [reflexivity|]. split.
  - subst r2 r1 create. simpl. intros [= H]. lia.
  - split.
    + subst fg1 r1 create c. simpl. rewrite <- app_assoc. reflexivity.
    + intros n. simpl destroy_times.
      rewrite destroy_times_fixed by apply postExecuteDestroy_again.
      unfold postExecuteDestroy. subst rt1 fg1 r2 r1 create c. simpl. rewrite Hi. simpl.
      split; [reflexivity|]. rewrite <- !app_assoc. reflexivity.
Qed.

Lemma devirtualize_twice_witness :
  imported rt_color_resolved = false
  /\ mask_consistent rt_color_resolved
  /\ handles_ok fg0 (descriptor rt_color_resolved) = true
  /\ false || devirtualize_ready fg0 rt_color_resolved = true
  /\ let c := CreateRenderTarget "color" COLOR 256 256 4
                (mkTargetBufferInfo (Some 7%nat) 0) emptyInfo emptyInfo in
     let create al :=
       createRenderTarget al "color" COLOR 256 256 4
         (mkTargetBufferInfo (Some 7%nat) 0) emptyInfo emptyInfo in
     let r1 := create (mResourceAllocator fg0) in
     let r2 := create (fst r1) in
     exists fg1 rt1 fg2 rt2,
       preExecuteDevirtualize false fg0 rt_color_resolved = Done (fg1, rt1)
       /\ mResourceAllocator fg1 = fst r1
       /\ target (rt_resource rt1) = snd r1
       /\ preExecuteDevirtualize false fg1 rt1 = Done (fg2, rt2)
       /\ mResourceAllocator fg2 = fst r2
       /\ target (rt_resource rt2) = snd r2
       /\ snd r2 <> snd r1
       /\ calls (mResourceAllocator fg2) = calls (mResourceAllocator fg0) ++ [c; c]
       /\ forall n,
            target (rt_resource (snd (destroy_times (S n) (fg2, rt2)))) = None
            /\ calls (mResourceAllocator (fst (destroy_times (S n) (fg2, rt2))))
               = calls (mResourceAllocator fg0) ++ [c; c; DestroyRenderTarget (snd r2)].
Proof.
  split; [reflexivity|]. split; [reflexivity|]. split; [reflexivity|].
  split; [reflexivity|].
  apply (devirtualize_twice false fg0 rt_color_resolved); reflexivity.
Defined.

(** The two handles of the run above: 100, then 101, and only 101 is
    destroyed. *)
Example devirtualize_twice_handles :
  exists fg1 rt1 fg2 rt2,
    preExecuteDevirtualize false fg0 rt_color_resolved = Done (fg1, rt1)
    /\ target (rt_resource rt1) = Some 100%nat
    /\ preExecuteDevirtualize false fg1 rt1 = Done (fg2, rt2)
    /\ target (rt_resource rt2) = Some 101%nat
    /\ calls (mResourceAllocator (fst (destroy_times 2 (fg2, rt2))))
       = [CreateRenderTarget "color" COLOR 256 256 4
            (mkTargetBufferInfo (Some 7%nat) 0) emptyInfo emptyInfo;
          CreateRenderTarget "color" COLOR 256 256 4
            (mkTargetBufferInfo (Some 7%nat) 0) emptyInfo emptyInfo;
          DestroyRenderTarget (Some 101%nat)].
Proof.
  eexists _, _, _, _. split; [reflexivity|]. split; [reflexivity|].
  split; [reflexivity|]. split; reflexivity.
Qed.

(** X12.  An entry with an empty mask that is not imported: a debug build
    stops at the first assertion of [preExecuteDevirtualize]; a build with
    [NDEBUG] checks nothing and asks the allocator for a render target all
    the same, with that mask and whatever the bindings are. *)
Theorem devirtualize_unchecked fg rt :
  imported rt = false ->
  (any (attachments rt) = false ->
   preExecuteDevirtualize false fg rt = Abort AssertionFailed)
  /\ (handles_ok fg (descriptor rt) = true ->
      exists fg' rt',
        preExecuteDevirtualize true fg rt = Done (fg', rt')
        /\ calls (mResourceAllocator fg')
           = calls (mResourceAllocator fg)
             ++ [CreateRenderTarget (name rt) (attachments rt) (width rt) (height rt)
                   (samples (descriptor rt))
                   (binding fg (color (desc_attachments (descriptor rt))))
                   (binding fg (depth (desc_attachments (descriptor rt))))
                   emptyInfo]
        /\ target (rt_resource rt') <> None).
Proof.
  intros Hi. split.
  - intros Ha. unfold preExecuteDevirtualize, assert. rewrite Hi, Ha. reflexivity.
  - intros Hok.
    rewrite (devirtualize_spec true fg rt Hi Hok (or_introl eq_refl)). cbn [orb].
    eexists _, _. split; [reflexivity|]. simpl. split; [reflexivity | discriminate].
Qed.

Lemma devirtualize_unchecked_witness :
  imported rt_none = false
  /\ (any (attachments rt_none) = false ->
      preExecuteDevirtualize false fg_virtual rt_none = Abort AssertionFailed)
  /\ (handles_ok fg_virtual (descriptor rt_none) = true ->
      exists fg' rt',
        preExecuteDevirtualize true fg_virtual rt_none = Done (fg', rt')
        /\ calls (mResourceAllocator fg')
           = calls (mResourceAllocator fg_virtual)
             ++ [CreateRenderTarget (name rt_none) (attachments rt_none) (width rt_none)
                   (height rt_none) (samples (descriptor rt_none))
                   (binding fg_virtual (color (desc_attachments (descriptor rt_none))))
                   (binding fg_virtual (depth (desc_attachments (descriptor rt_none))))
                   emptyInfo]
        /\ target (rt_resource rt') <> None).
Proof.
  split; [reflexivity | apply (devirtualize_unchecked fg_virtual rt_none); reflexivity].
Defined.

(** With [NDEBUG], a texture without a real handle goes to the allocator as
    a null binding; the debug build refuses it. *)
Example devirtualize_release_null_binding :
  exists fg' rt',
    preExecuteDevirtualize true fg_virtual
      (mkEntry "null" false (mkDescriptor (mkAttachments (att 0 0) invalid invalid) 1 NONE)
               (fresh_resource NONE) COLOR 64 64)
    = Done (fg', rt')
    /\ calls (mResourceAllocator fg')
       = [CreateRenderTarget "null" COLOR 64 64 1 emptyInfo emptyInfo emptyInfo].
Proof. eexists _, _. split; reflexivity. Qed.

(** ** More invariants of the per-pass protocol *)

Lemma update_fields fg pass rt rt' diags :
  update fg pass rt = Done (rt', diags) ->
  name rt' = name rt /\ imported rt' = imported rt /\ descriptor rt' = descriptor rt
  /\ attachments rt' = attachments rt /\ width rt' = width rt /\ height rt' = height rt
  /\ viewport_width (rt_resource rt') = viewport_width (rt_resource rt)
  /\ viewport_height (rt_resource rt') = viewport_height (rt_resource rt)
  /\ target (rt_resource rt') = target (rt_resource rt).
Proof.
  unfold update. destruct (any (attachments rt)).
  - intros H. apply bind_Done in H as (s & _ & H).
    apply Done_pair_inj in H as [<- _]. simpl. auto 10.
  - intros H. apply Done_pair_inj in H as [<- _]. auto 10.
Qed.

Lemma devirtualize_fields NDEBUG fg rt fg' rt' :
  preExecuteDevirtualize NDEBUG fg rt = Done (fg', rt') ->
  name rt' = name rt /\ imported rt' = imported rt /\ descriptor rt' = descriptor rt
  /\ attachments rt' = attachments rt /\ width rt' = width rt /\ height rt' = height rt
  /\ viewport_width (rt_resource rt') = viewport_width (rt_resource rt)
  /\ viewport_height (rt_resource rt') = viewport_height (rt_resource rt).
Proof.
  destruct (imported rt) eqn:Hi.
  - unfold preExecuteDevirtualize. rewrite Hi. intros H.
    apply Done_pair_inj in H as [_ <-]. auto 10.
  - intros H. apply (devirtualize_inv _ _ _ _ _ Hi) in H as (i0 & i1 & _ & _ & ->).
    simpl. auto 10.
Qed.

Lemma destroy_fields fg rt :
  let rt' := snd (postExecuteDestroy fg rt) in
  name rt' = name rt /\ imported rt' = imported rt /\ descriptor rt' = descriptor rt
  /\ attachments rt' = attachments rt /\ width rt' = width rt /\ height rt' = height rt
  /\ viewport_width (rt_resource rt') = viewport_width (rt_resource rt)
  /\ viewport_height (rt_resource rt') = viewport_height (rt_resource rt).
Proof.
  cbv zeta. unfold postExecuteDestroy.
  destruct (negb (imported rt)), (nonnull (target (rt_resource rt))); simpl; auto 10.
Qed.

(** X13.  Whatever the frame graph does pass after pass, the resolved state
    of an entry stays as [resolve] left it: its name, imported flag,
    descriptor, mask, width, height and viewport are the same in every state
    reached; so a mask that agrees with the slots keeps agreeing. *)
Theorem resolved_state_kept NDEBUG fg rt ops :
  Forall (fun s : State =>
            name (snd s) = name rt /\ imported (snd s) = imported rt
            /\ descriptor (snd s) = descriptor rt
            /\ attachments (snd s) = attachments rt
            /\ width (snd s) = width rt /\ height (snd s) = height rt
            /\ viewport_width (rt_resource (snd s)) = viewport_width (rt_resource rt)
            /\ viewport_height (rt_resource (snd s)) = viewport_height (rt_resource rt)
            /\ (mask_consistent rt -> mask_consistent (snd s)))
         (trace NDEBUG ops (fg, rt)).
Proof.
  eapply Forall_impl;
    [apply (trace_invariant
              (fun s : State =>
                 name (snd s) = name rt /\ imported (snd s) = imported rt
                 /\ descriptor (snd s) = descriptor rt
                 /\ attachments (snd s) = attachments rt
                 /\ width (snd s) = width rt /\ height (snd s) = height rt
                 /\ viewport_width (rt_resource (snd s)) = viewport_width (rt_resource rt)
                 /\ viewport_height (rt_resource (snd s))
                    = viewport_height (rt_resource rt)))|].
  - intros op [fg1 rt1] [fg2 rt2] (Hn & Hi & Hd & Ha & Hw & Hh & Hvw & Hvh) Hstep.
    cbn [fst snd] in *.
    destruct op as [pass| | | |es ns]; cbn [step fst snd] in Hstep.
    + apply bind_Done in Hstep as ([rt3 ds] & E & Hstep).
      apply Done_pair_inj in Hstep as [_ <-].
      apply update_fields in E as (? & ? & ? & ? & ? & ? & ? & ? & _).
      cbn [fst snd]. repeat split; congruence.
    + apply devirtualize_fields in Hstep as (? & ? & ? & ? & ? & ? & ? & ?).
      repeat split; congruence.
    + injection Hstep as Hstep. pose proof (destroy_fields fg1 rt1) as Hf.
      cbv zeta in Hf. rewrite Hstep in Hf. cbn [snd] in Hf.
      destruct Hf as (? & ? & ? & ? & ? & ? & ? & ?). repeat split; congruence.
    + apply Done_pair_inj in Hstep as [_ <-]. simpl. auto 10.
    + apply Done_pair_inj in Hstep as [_ <-]. auto 10.
  - cbn [snd]. auto 10.
  - intros [fg1 rt1] (Hn & Hi & Hd & Ha & Hw & Hh & Hvw & Hvh). cbn [snd] in *.
    repeat (split; [assumption|]).
    unfold mask_consistent. rewrite Ha, Hd. auto.
Qed.

(** X14.  In a debug build, an entry that is not imported never holds a
    real target while its mask is empty: if that is so at the start, it is
    so in every state reached. *)
Theorem real_target_needs_slots fg rt ops :
  imported rt = false ->
  (target (rt_resource rt) <> None -> any (attachments rt) = true) ->
  Forall (fun s : State =>
            target (rt_resource (snd s)) <> None -> any (attachments (snd s)) = true)
         (trace false ops (fg, rt)).
Proof.
  intros Hi H0.
  eapply Forall_impl;
    [apply (trace_invariant
              (fun s : State =>
                 imported (snd s) = false
                 /\ (target (rt_resource (snd s)) <> None
                     -> any (attachments (snd s)) = true)))|].
  - intros op [fg1 rt1] [fg2 rt2] (Hi1 & H1) Hstep. cbn [fst snd] in *.
    destruct op as [pass| | | |es ns]; cbn [step fst snd] in Hstep.
    + apply bind_Done in Hstep as ([rt3 ds] & E & Hstep).
      apply Done_pair_inj in Hstep as [_ <-].
      apply update_fields in E as (_ & Ei & _ & Ea & _ & _ & _ & _ & Et).
      cbn [fst snd]. rewrite Ei, Ea, Et. auto.
    + apply (devirtualize_inv _ _ _ _ _ Hi1) in Hstep as (i0 & i1 & Hany & _ & ->).
      simpl in *. auto.
    + revert Hstep. unfold postExecuteDestroy. rewrite Hi1. cbn [negb].
      destruct (target (rt_resource rt1)) eqn:Ht; cbn [nonnull].
      * intros [= _ <-]. simpl. split; [exact Hi1 | congruence].
      * intros [= _ <-]. rewrite Ht. auto.
    + apply Done_pair_inj in Hstep as [_ <-]. simpl. auto.
    + apply Done_pair_inj in Hstep as [_ <-]. auto.
  - cbn [snd]. auto.
  - intros s [_ H]. exact H.
Qed.

Lemma real_target_needs_slots_witness :
  imported rt_none = false
  /\ (target (rt_resource rt_none) <> None -> any (attachments rt_none) = true)
  /\ forall ops,
       Forall (fun s : State =>
                 target (rt_resource (snd s)) <> None
                 -> any (attachments (snd s)) = true)
              (trace false ops (fg0, rt_none)).
Proof.
  split; [reflexivity|]. split; [intros H; exfalso; apply H; reflexivity|].
  intros ops. apply (real_target_needs_slots fg0 rt_none ops);
    [reflexivity | intros H; exfalso; apply H; reflexivity].
Defined.

(** X15.  For an entry that is not imported and starts without a real
    target, at every point of every run the allocator has been asked to
    destroy at most as many render targets as it was asked to create; while
    the entry holds a real target, strictly fewer. *)
Theorem destroys_bounded_by_creates NDEBUG fg rt ops :
  imported rt = false ->
  target (rt_resource rt) = None ->
  Forall (fun s : State =>
            (count_calls is_destroy (calls (mResourceAllocator (fst s)))
             + (if nonnull (target (rt_resource (snd s))) then 1 else 0)
             + count_calls is_create (calls (mResourceAllocator fg))
             <= count_calls is_create (calls (mResourceAllocator (fst s)))
                + count_calls is_destroy (calls (mResourceAllocator fg)))%nat)
         (trace NDEBUG ops (fg, rt)).
Proof.
  intros Hi Ht.
  eapply Forall_impl;
    [apply (trace_invariant
              (fun s : State =>
                 imported (snd s) = false
                 /\ (count_calls is_destroy (calls (mResourceAllocator (fst s)))
                     + (if nonnull (target (rt_resource (snd s))) then 1 else 0)
                     + count_calls is_create (calls (mResourceAllocator fg))
                     <= count_calls is_create (calls (mResourceAllocator (fst s)))
                        + count_calls is_destroy (calls (mResourceAllocator fg)))%nat))|].
  - intros op [fg1 rt1] [fg2 rt2] (Hi1 & H1) Hstep. cbn [fst snd] in *.
    destruct op as [pass| | | |es ns]; cbn [step fst snd] in Hstep.
    + apply bind_Done in Hstep as ([rt3 ds] & E & Hstep).
      apply Done_pair_inj in Hstep as [<- <-].
      apply update_fields in E as (_ & Ei & _ & _ & _ & _ & _ & _ & Et).
      cbn [fst snd]. rewrite Ei, Et. auto.
    + apply (devirtualize_inv _ _ _ _ _ Hi1) in Hstep as (i0 & i1 & _ & -> & ->).
      simpl. split; [exact Hi1|]. rewrite !count_calls_app. simpl.
      destruct (nonnull (target (rt_resource rt1))); lia.
    + revert Hstep. unfold postExecuteDestroy. rewrite Hi1. cbn [negb].
      destruct (nonnull (target (rt_resource rt1))) eqn:Hnn.
      * intros [= <- <-]. simpl. split; [exact Hi1|].
        rewrite !count_calls_app. simpl. lia.
      * intros [= <- <-]. rewrite Hnn. split; [exact Hi1 | exact H1].
    + apply Done_pair_inj in Hstep as [<- <-]. simpl. auto.
    + apply Done_pair_inj in Hstep as [<- <-]. simpl. auto.
  - cbn [fst snd]. rewrite Ht. simpl. split; [exact Hi | lia].
  - intros s [_ H]. exact H.
Qed.

Lemma destroys_bounded_by_creates_witness :
  imported rt_color_resolved = false
  /\ target (rt_resource rt_color_resolved) = None
  /\ forall ops,
       Forall (fun s : State =>
                 (count_calls is_destroy (calls (mResourceAllocator (fst s)))
                  + (if nonnull (target (rt_resource (snd s))) then 1 else 0)
                  + count_calls is_create (calls (mResourceAllocator fg0))
                  <= count_calls is_create (calls (mResourceAllocator (fst s)))
                     + count_calls is_destroy (calls (mResourceAllocator fg0)))%nat)
              (trace false ops (fg0, rt_color_resolved)).
Proof.
  split; [reflexivity|]. split; [reflexivity|].
  intros ops.
  apply (destroys_bounded_by_creates false fg0 rt_color_resolved ops); reflexivity.
Defined.

(** X16.  The life of an entry without any valid slot: [resolve] gives it an
    empty mask; then [update] returns it unchanged for every pass, without
    looking at the frame graph and without the diagnostic, although the
    entry has no real target; and in a debug build
    [preExecuteDevirtualize] refuses it unless it is imported. *)
Theorem no_slot_lifecycle fg rt :
  has_valid_slot (descriptor rt) = false ->
  exists rt',
    resolve fg rt = Done (fg, rt')
    /\ attachments rt' = NONE
    /\ (forall fgx pass, update fgx pass rt' = Done (rt', []))
    /\ (imported rt = false ->
        forall fgx, preExecuteDevirtualize false fgx rt' = Abort AssertionFailed).
Proof.
  intros Hv. eexists. split; [apply (resolve_empty fg rt Hv)|].
  split; [reflexivity|]. split.
  - intros fgx pass. reflexivity.
  - intros Hi fgx. unfold preExecuteDevirtualize. cbn [imported]. rewrite Hi. reflexivity.
Qed.

Lemma no_slot_lifecycle_witness :
  has_valid_slot (descriptor rt_none) = false
  /\ exists rt',
       resolve fg0 rt_none = Done (fg0, rt')
       /\ attachments rt' = NONE
       /\ (forall fgx pass, update fgx pass rt' = Done (rt', []))
       /\ (imported rt_none = false ->
           forall fgx, preExecuteDevirtualize false fgx rt' = Abort AssertionFailed).
Proof.
  split; [reflexivity | apply (no_slot_lifecycle fg0 rt_none); reflexivity].
Defined.

(** ** resolve and the sample-count assertion *)

(** X17.  After [resolve], the sample-count assertion of
    [preExecuteDevirtualize] holds for the texture behind a valid slot
    exactly when that texture was declared with at most one sample or with
    the sample count of the render target: a texture that took its sample
    count from the render target always passes. *)
Theorem resolve_sample_assertion fg rt :
  handles_ok fg (descriptor rt) = true ->
  exists fg' rt',
    resolve fg rt = Done (fg', rt')
    /\ forall a p e,
         In a (textures (desc_attachments (descriptor rt))) ->
         entryOf fg a = Some (p, e) ->
         exists e',
           entryOf fg' a = Some (p, e')
           /\ ((tex_samples (tex_descriptor e') <=? 1)
               || (tex_samples (tex_descriptor e') =? samples (descriptor rt')) = true
               <-> tex_samples (tex_descriptor e) <= 1
                   \/ tex_samples (tex_descriptor e) = samples (descriptor rt)).
Proof.
  intros Hok.
  destruct (resolve_spec fg rt Hok) as (fg' & rt' & E & Hf & _ & _ & Hd & _).
  exists fg', rt'. split; [exact E|].
  destruct (resolve_inv _ _ _ _ E) as (v' & EL).
  intros a p e Hin He.
  pose proof (frame_entryOf fg fg' a Hf) as Hfe. rewrite He in Hfe.
  destruct (entryOf fg' a) as [[q e']|] eqn:He'; [|contradiction].
  simpl in Hfe. destruct Hfe as [Hq _]. subst q. exists e'. split; [reflexivity|].
  pose proof (entryOf_lookup _ _ _ _ He) as Hl.
  pose proof (entryOf_lookup _ _ _ _ He') as Hl'.
  destruct (resolve_loop_samples _ _ _ _ _ _ _ EL Hok p e Hl) as (e2 & Hl2 & Hs & _).
  rewrite Hl' in Hl2. injection Hl2 as <-.
  assert (Href : referenced fg (textures (desc_attachments (descriptor rt))) p = true).
  { unfold referenced. apply existsb_exists. exists a. split; [exact Hin|].
    apply (entryOf_references _ _ _ _ He). }
  rewrite Href in Hs. simpl in Hs. rewrite Hd, Hs.
  rewrite orb_true_iff, Z.leb_le, Z.eqb_eq.
  unfold takes_samples. destruct (Z.eqb_spec (tex_samples (tex_descriptor e)) 0) as [Z0|Z0];
    simpl; [|tauto].
  destruct (none (Z.land (tex_usage (tex_descriptor e)) SAMPLEABLE)); [|tauto].
  split; [intros _; left; lia | intros _; right; reflexivity].
Qed.

Lemma resolve_sample_assertion_witness :
  handles_ok fg0 (descriptor rt_color) = true
  /\ exists fg' rt',
       resolve fg0 rt_color = Done (fg', rt')
       /\ forall a p e,
            In a (textures (desc_attachments (descriptor rt_color))) ->
            entryOf fg0 a = Some (p, e) ->
            exists e',
              entryOf fg' a = Some (p, e')
              /\ ((tex_samples (tex_descriptor e') <=? 1)
                  || (tex_samples (tex_descriptor e') =? samples (descriptor rt')) = true
                  <-> tex_samples (tex_descriptor e) <= 1
                      \/ tex_samples (tex_descriptor e) = samples (descriptor rt_color)).
Proof.
  split; [reflexivity | apply (resolve_sample_assertion fg0 rt_color); reflexivity].
Defined.
